(** * puku, generate/node: import classification and local resolution

    A shallow embedding of the JavaScript/TypeScript front end of puku
    (package [node]): file-role classification, import classification,
    relative-import resolution against the file system, build-target lookup
    and the per-directory parse loop.

    Go strings are byte strings; they are modelled by [string] (a list of
    8-bit [ascii] characters), and [[]byte] contents likewise. *)

From Stdlib Require Import String Ascii List Bool Arith Lia.
From stdpp Require Import gmap strings.

Import ListNotations.
Local Open Scope string_scope.
Local Open Scope bool_scope.

(** ** The parts of Go's [strings] package the code calls *)

Module Str.

(** [strings.HasPrefix(s, prefix)]. *)
Definition HasPrefix (s prefix : string) : bool := String.prefix prefix s.

(** [strings.HasSuffix(s, suffix)]:
    [len(s) >= len(suffix) && s[len(s)-len(suffix):] == suffix]. *)
Definition HasSuffix (s suffix : string) : bool :=
  (String.length suffix <=? String.length s)%nat &&
  String.eqb
    (String.substring (String.length s - String.length suffix)
                      (String.length suffix) s)
    suffix.

(** [strings.Contains(s, substr)]: [substr] occurs at some offset of [s]. *)
Fixpoint Contains (s substr : string) : bool :=
  String.prefix substr s ||
  match s with
  | EmptyString => false
  | String _ rest => Contains rest substr
  end.

(** [strings.TrimPrefix(s, prefix)]. *)
Definition TrimPrefix (s prefix : string) : string :=
  if String.prefix prefix s
  then String.substring (String.length prefix)
                        (String.length s - String.length prefix) s
  else s.

(** Lower-casing of one byte.  Go's [strings.ToLower] also maps non-ASCII
    upper-case runes; no such rune lowers to one of the ASCII letters of the
    patterns searched for below, and multi-byte runes contain no ASCII byte,
    so for those searches the byte-wise map gives the same answers. *)
Definition lowerByte (c : ascii) : ascii :=
  let n := nat_of_ascii c in
  if (65 <=? n)%nat && (n <=? 90)%nat then ascii_of_nat (n + 32) else c.

(** [strings.ToLower(s)]. *)
Fixpoint ToLower (s : string) : string :=
  match s with
  | EmptyString => EmptyString
  | String c rest => String (lowerByte c) (ToLower rest)
  end.

End Str.

(** ** The parts of Go's [path/filepath] package the code calls (Unix)

    On Unix the separator is the byte [/] and there are no volume names. *)

Module Filepath.

Definition IsPathSeparator (c : ascii) : bool := Ascii.eqb c "/".

(** Scan of [Ext] from the right end of the path: [Some e] once the scan has
    stopped inside the string (at a dot, with the suffix [e] from that dot, or
    at a separator, with [e] empty), [None] while it has met neither. *)
Fixpoint extScan (path : string) : option string :=
  match path with
  | EmptyString => None
  | String c rest =>
      match extScan rest with
      | Some e => Some e
      | None =>
          if Ascii.eqb c "." then Some (String c rest)
          else if IsPathSeparator c then Some EmptyString
          else None
      end
  end.

(** [filepath.Ext(path)]: the suffix beginning at the final dot in the final
    element of [path]; empty if there is no dot. *)
Definition Ext (path : string) : string :=
  match extScan path with
  | Some e => e
  | None => EmptyString
  end.

(** The path elements between separators ([strings.Split(path, "/")]). *)
Fixpoint splitSlash (path : string) : list string :=
  match path with
  | EmptyString => [EmptyString]
  | String c rest =>
      if IsPathSeparator c then EmptyString :: splitSlash rest
      else match splitSlash rest with
           | e :: es => String c e :: es
           | [] => [String c EmptyString]
           end
  end.

(** One step of [Clean]'s scan, on the stack of elements written so far (top
    first): empty and [.] elements are dropped, [..] removes the last real
    element, is kept when the path is not rooted and nothing can be removed,
    and is dropped at the root. *)
Definition cleanStep (rooted : bool) (out : list string) (e : string)
  : list string :=
  if String.eqb e "" || String.eqb e "." then out
  else if String.eqb e ".." then
    match out with
    | top :: below =>
        if String.eqb top ".." then e :: out else below
    | [] => if rooted then out else [e]
    end
  else e :: out.

(** [filepath.Clean(path)]. *)
Definition Clean (path : string) : string :=
  match path with
  | EmptyString => "."
  | String c _ =>
      let rooted := IsPathSeparator c in
      let out := fold_left (cleanStep rooted) (splitSlash path) [] in
      let body := String.concat "/" (rev out) in
      if rooted then String "/" body
      else if String.eqb body "" then "." else body
  end.

(** [filepath.Join(elem...)]: the elements from the first non-empty one on,
    joined by separators and cleaned; empty if all are empty. *)
Fixpoint Join (elem : list string) : string :=
  match elem with
  | [] => EmptyString
  | e :: rest =>
      if String.eqb e "" then Join rest
      else Clean (String.concat "/" elem)
  end.

(** [path] without its trailing separators. *)
Fixpoint stripTrailingSlashes (path : string) : string :=
  match path with
  | EmptyString => EmptyString
  | String c rest =>
      let r := stripTrailingSlashes rest in
      if String.eqb r "" && IsPathSeparator c then EmptyString
      else String c r
  end.

(** The bytes after the last separator ([None]: there is no separator). *)
Fixpoint afterLastSlash (path : string) : option string :=
  match path with
  | EmptyString => None
  | String c rest =>
      match afterLastSlash rest with
      | Some e => Some e
      | None => if IsPathSeparator c then Some rest else None
      end
  end.

(** [filepath.Base(path)]: the last element of [path], trailing separators
    removed first; [.] for the empty path, [/] for a path of separators. *)
Definition Base (path : string) : string :=
  if String.eqb path "" then "."
  else
    let p := stripTrailingSlashes path in
    let last := match afterLastSlash p with Some e => e | None => p end in
    if String.eqb last "" then "/" else last.

(** The bytes up to and including the last separator. *)
Fixpoint uptoLastSlash (path : string) : string :=
  match path with
  | EmptyString => EmptyString
  | String c rest =>
      match afterLastSlash rest with
      | Some _ => String c (uptoLastSlash rest)
      | None => if IsPathSeparator c then String c EmptyString
                else EmptyString
      end
  end.

(** [filepath.Dir(path)]: all but the last element of [path], cleaned. *)
Definition Dir (path : string) : string := Clean (uptoLastSlash path).

End Filepath.

(** ** Data model (generate/node/import.go) *)

(** [FileType]: the role of a JavaScript/TypeScript file. *)
Inductive FileType : Type := Library | Test | Binary.

(** [ImportType]: the kind of an import.  [AssetImport] is declared by the
    revision of import.go that classifies asset extensions; the revision with
    the resolver declares the first three constants only and sends any other
    value to the [default] branch of its [switch]. *)
Inductive ImportType : Type :=
| RelativeImport
| BareImport
| BuiltinImport
| AssetImport.

(** [Import]: one imported name of an import statement.  The Go field [Type]
    is [Type_] here. *)
Record Import : Type := mkImport {
  Path : string;
  ImportedName : string;
  Type_ : ImportType;
  IsDefault : bool
}.

(** [File]: one parsed source file.  The Go field [FileType] is [FileType_]
    here. *)
Record File : Type := mkFile {
  Name : string;
  FileName : string;
  Imports : list Import;
  FileType_ : FileType;
  HasDefault : bool
}.

(** [kinds.Type] of package [kinds], as far as [KindType] uses it. *)
Inductive kinds_Type : Type := kinds_Lib | kinds_Test | kinds_Bin.

Definition IsTest (f : File) : bool :=
  match FileType_ f with Test => true | _ => false end.

Definition IsCmd (f : File) : bool :=
  match FileType_ f with Binary => true | _ => false end.

Definition KindType (f : File) : kinds_Type :=
  if IsTest f then kinds_Test
  else if IsCmd f then kinds_Bin
  else kinds_Lib.

(** ** Errors

    The error numbers inside the [*fs.PathError] values of package [os]. *)
Inductive Errno : Type := ENOENT | ENOTDIR | EACCES | EIO.

(** [os.IsNotExist(err)], on the error of an [os] call ([None] is [nil]):
    true for [ENOENT] only. *)
Definition os_IsNotExist (err : option Errno) : bool :=
  match err with
  | Some ENOENT => true
  | _ => false
  end.

(** The error values of the package, one constructor per [fmt.Errorf] call
    (named after its format string), and the errors passed through from [os]
    and from the tree-sitter parser. *)
Inductive error : Type :=
| PathError (path : string) (errno : Errno)
    (* the error of os.ReadDir, os.ReadFile *)
| SitterError (msg : string)
    (* the error of parser.ParseCtx *)
| Errorf_parsing (what : string) (err : error)
    (* "parsing %s: %w" *)
| Errorf_reading_file (err : error)
    (* "reading file: %w" *)
| Errorf_empty_import_path
    (* "empty import path" *)
| Errorf_could_not_resolve_import (importPath currentDir : string)
    (* "could not resolve import %q from %q" *)
| Errorf_not_a_relative_import (importPath : string)
    (* "not a relative import: %q" *)
| Errorf_resolving_relative_import (importPath : string) (err : error)
    (* "resolving relative import %q: %w" *)
| Errorf_finding_package_target (targetDir : string) (err : error)
    (* "finding package target in %q: %w" *)
| Errorf_bare_import_resolution_not_implemented (importPath : string)
    (* "bare import resolution not implemented: %q" *)
| Errorf_unknown_import_type (importPath : string).
    (* "unknown import type for %q" *)

(** ** The file system and the parser, as the code sees them *)

(** [fs.DirEntry]: the name of a directory entry and [Type().IsRegular()]. *)
Record DirEntry : Type := mkDirEntry {
  entryName : string;
  entryIsRegular : bool
}.

(** What the [os] calls of the package answer.  [None] from [Stat] is a nil
    error. *)
Record World : Type := mkWorld {
  Stat : string -> option Errno;
  ReadDir : string -> Errno + list DirEntry;
  ReadFile : string -> Errno + string
}.

(** A call to package [os], with the name passed. *)
Inductive Syscall : Type :=
| SysStat (name : string)
| SysReadDir (name : string)
| SysReadFile (name : string).

(** Computations that call [os]: the world is read, and every call is
    appended to a log. *)
Definition IO (A : Type) : Type := World -> list Syscall -> A * list Syscall.

Definition io_ret {A : Type} (a : A) : IO A := fun _ log => (a, log).

Definition io_bind {A B : Type} (m : IO A) (k : A -> IO B) : IO B :=
  fun w log => let (a, log') := m w log in k a w log'.

Notation "'let*' x ':=' m 'in' k" := (io_bind m (fun x => k))
  (at level 10, x name, m at level 100, k at level 200).

(** The result and the log of a computation started with an empty log. *)
Definition run {A : Type} (m : IO A) (w : World) : A * list Syscall := m w [].

(** [os.Stat(name)], the file information dropped. *)
Definition os_Stat (name : string) : IO (option Errno) :=
  fun w log => (Stat w name, (log ++ [SysStat name])%list).

(** [os.ReadDir(name)]. *)
Definition os_ReadDir (name : string) : IO (Errno + list DirEntry) :=
  fun w log => (ReadDir w name, (log ++ [SysReadDir name])%list).

(** [os.ReadFile(name)]. *)
Definition os_ReadFile (name : string) : IO (Errno + string) :=
  fun w log => (ReadFile w name, (log ++ [SysReadFile name])%list).

(** ** File roles (generate/node/import.go) *)

(** [isJavaScriptFile]. *)
Definition isJavaScriptFile (filename : string) : bool :=
  let ext := Filepath.Ext filename in
  String.eqb ext ".js" || String.eqb ext ".jsx" || String.eqb ext ".ts" ||
  String.eqb ext ".tsx" || String.eqb ext ".mjs" || String.eqb ext ".cjs".

(** [inferPackageName]. *)
Definition inferPackageName (dir : string) : string := Filepath.Base dir.

(** [classifyFileType]: test patterns on the lower-cased name first, then the
    shebang test on the content, else library. *)
Definition classifyFileType (filename content : string) : FileType :=
  let base := Str.ToLower filename in
  if Str.Contains base ".test." || Str.Contains base ".spec." ||
     Str.HasSuffix base "_test.js" || Str.HasSuffix base "_test.ts" ||
     Str.HasSuffix base ".test.js" || Str.HasSuffix base ".test.ts" ||
     Str.HasSuffix base ".spec.js" || Str.HasSuffix base ".spec.ts"
  then Test
  else if (2 <? String.length content)%nat &&
          String.eqb (String.substring 0 2 content) "#!"
  then Binary
  else Library.

(** The tree-sitter grammars [parseFile] chooses from. *)
Inductive Grammar : Type := javascript | typescript | tsx.

(** The [switch] of [parseFile] on the lower-cased extension. *)
Definition grammarFor (ext : string) : Grammar :=
  if String.eqb ext ".ts" then typescript
  else if String.eqb ext ".tsx" then tsx
  else javascript.

(** ** Import classification *)

(** [strings.HasPrefix(importPath, "./") || strings.HasPrefix(importPath,
    "../") || importPath == "." || importPath == ".."], the test shared by
    [classifyImportType] and [ResolveRelativeImport]. *)
Definition isRelativePath (importPath : string) : bool :=
  Str.HasPrefix importPath "./" || Str.HasPrefix importPath "../" ||
  String.eqb importPath "." || String.eqb importPath "..".

Section Builtins.

(** The builtin allow-list of the configuration. *)
Variable allowList : list string.

(** A name is matched by the allow-list when it is one of its names or a
    submodule [x/y] of one of its names [x]; the comparison is on bytes. *)
Definition onAllowList (name : string) : bool :=
  existsb (fun b => String.eqb name b || Str.HasPrefix name (b ++ "/"))
          allowList.

(** Modelled from the spec: [IsNodeBuiltin] (builtins.go), which is called by
    [classifyImportType] and tested by builtins_test.go.  A module path is
    builtin when it matches the allow-list exactly or as a submodule, as it
    stands or after its [node:] scheme prefix is removed; matching is
    case-sensitive and a [node:] name that is not listed is not builtin. *)
Definition IsNodeBuiltin (modulePath : string) : bool :=
  onAllowList modulePath ||
  (Str.HasPrefix modulePath "node:" &&
   onAllowList (Str.TrimPrefix modulePath "node:")).

End Builtins.

(** The revision of import.go that gives asset extensions a kind of their
    own. *)
Module WithAssetKind.
Section Classify.
Variable allowList : list string.

(** [classifyImportType]: builtin, then relative, then asset extension, else
    bare. *)
Definition classifyImportType (importPath : string) : ImportType :=
  if IsNodeBuiltin allowList importPath then BuiltinImport
  else if isRelativePath importPath then RelativeImport
  else
    let ext := Filepath.Ext importPath in
    if String.eqb ext ".css" || String.eqb ext ".scss" ||
       String.eqb ext ".less" || String.eqb ext ".json" ||
       String.eqb ext ".png" || String.eqb ext ".jpg" ||
       String.eqb ext ".svg" || String.eqb ext ".gif"
    then AssetImport
    else BareImport.

End Classify.
End WithAssetKind.

(** The revision of import.go that carries the resolver. *)
Module WithResolver.
Section Classify.
Variable allowList : list string.

(** [classifyImportType]: builtin, then relative, else bare. *)
Definition classifyImportType (importPath : string) : ImportType :=
  if IsNodeBuiltin allowList importPath then BuiltinImport
  else if isRelativePath importPath then RelativeImport
  else BareImport.

End Classify.

(** The extension list of both loops of [ResolveRelativeImport]. *)
Definition jsExtensions : list string :=
  [".js"; ".ts"; ".jsx"; ".tsx"; ".mjs"; ".cjs"].

(** [for _, ext := range exts { if _, err := os.Stat(base + ext); err == nil
    { return base + ext, nil } }]: the first candidate whose [Stat] has a nil
    error, if any. *)
Fixpoint firstStatOk (base : string) (exts : list string)
  : IO (option string) :=
  match exts with
  | [] => io_ret None
  | ext :: rest =>
      let* err := os_Stat (base ++ ext) in
      match err with
      | None => io_ret (Some (base ++ ext))
      | Some _ => firstStatOk base rest
      end
  end.

(** [ResolveRelativeImport]. *)
Definition ResolveRelativeImport (currentDir importPath : string)
  : IO (error + string) :=
  if String.eqb importPath "" then io_ret (inl Errorf_empty_import_path)
  else if isRelativePath importPath then
    let absPath := Filepath.Join [currentDir; importPath] in
    let cleanPath := Filepath.Clean absPath in
    let* err := os_Stat cleanPath in
    if os_IsNotExist err then
      let* found := firstStatOk cleanPath jsExtensions in
      match found with
      | Some p => io_ret (inr p)
      | None =>
          let indexPath := Filepath.Join [cleanPath; "index"] in
          let* found := firstStatOk indexPath jsExtensions in
          match found with
          | Some p => io_ret (inr p)
          | None =>
              io_ret (inl (Errorf_could_not_resolve_import
                             importPath currentDir))
          end
      end
    else io_ret (inr cleanPath)
  else io_ret (inl (Errorf_not_a_relative_import importPath)).

(** [FindPackageTarget]: no error is ever returned. *)
Definition FindPackageTarget (dir : string) : IO (error + string) :=
  let buildFile := Filepath.Join [dir; "BUILD"] in
  let* err := os_Stat buildFile in
  if os_IsNotExist err then io_ret (inr "")
  else
    let packageName := Filepath.Base dir in
    io_ret (inr ("//" ++ packageName)).

(** [ResolveDependency], a method of [File]; the receiver is not used. *)
Definition ResolveDependency (f : File) (imp : Import) (currentDir : string)
  : IO (error + string) :=
  match Type_ imp with
  | BuiltinImport => io_ret (inr "")
  | RelativeImport =>
      let* r := ResolveRelativeImport currentDir (Path imp) in
      match r with
      | inl err =>
          io_ret (inl (Errorf_resolving_relative_import (Path imp) err))
      | inr resolvedPath =>
          let targetDir :=
            if negb (Str.HasSuffix resolvedPath "/")
            then Filepath.Dir resolvedPath
            else resolvedPath in
          let* t := FindPackageTarget targetDir in
          match t with
          | inl err =>
              io_ret (inl (Errorf_finding_package_target targetDir err))
          | inr target => io_ret (inr target)
          end
      end
  | BareImport =>
      io_ret (inl (Errorf_bare_import_resolution_not_implemented (Path imp)))
  | AssetImport => io_ret (inl (Errorf_unknown_import_type (Path imp)))
  end.

End WithResolver.

(** ** Import extraction (generate/node/import.go)

    The traversal of the tree-sitter syntax tree.  A node is given by its
    type, the byte span of its text and its children. *)

Inductive Node : Type :=
| mkNode (type : string) (startByte endByte : nat) (children : list Node).

(** [node.Type()]. *)
Definition nodeType (n : Node) : string :=
  match n with mkNode type _ _ _ => type end.

(** [node.StartByte()] and [node.EndByte()]. *)
Definition startByte (n : Node) : nat :=
  match n with mkNode _ startByte _ _ => startByte end.

Definition endByte (n : Node) : nat :=
  match n with mkNode _ _ endByte _ => endByte end.

(** The children [node.Child(0)], ..., [node.Child(node.ChildCount()-1)]. *)
Definition nodeChildren (n : Node) : list Node :=
  match n with mkNode _ _ _ children => children end.

(** [node.Content(input)], that is [string(input[StartByte:EndByte])], on the
    inputs the traversal passes: [None] for the nil slice and [Some] for the
    file content, a slice filled to its capacity.  The result is [None] when
    the slice expression panics, its bounds being out of range. *)
Definition Content (n : Node) (input : option string) : option string :=
  let bytes := match input with Some src => src | None => EmptyString end in
  if (startByte n <=? endByte n)%nat && (endByte n <=? String.length bytes)%nat
  then Some (String.substring (startByte n) (endByte n - startByte n) bytes)
  else None.

(** Membership of a byte in an ASCII cutset. *)
Fixpoint inCutset (c : ascii) (cutset : string) : bool :=
  match cutset with
  | EmptyString => false
  | String d rest => Ascii.eqb c d || inCutset c rest
  end.

(** [strings.TrimLeft(s, cutset)] and [strings.TrimRight(s, cutset)] for an
    ASCII cutset. *)
Fixpoint TrimLeft (s cutset : string) : string :=
  match s with
  | EmptyString => EmptyString
  | String c rest => if inCutset c cutset then TrimLeft rest cutset else s
  end.

Fixpoint TrimRight (s cutset : string) : string :=
  match s with
  | EmptyString => EmptyString
  | String c rest =>
      let r := TrimRight rest cutset in
      if String.eqb r "" && inCutset c cutset then EmptyString
      else String c r
  end.

(** [strings.Trim(s, cutset)] for an ASCII cutset. *)
Definition Trim (s cutset : string) : string :=
  TrimRight (TrimLeft s cutset) cutset.

(** The cutset of [extractImportStatement]: the double and the single
    quote. *)
Definition quoteCutset : string :=
  String "034"%char (String "039"%char EmptyString).

(** The first child of type [identifier], as the inner loops with [break]
    find it. *)
Definition firstIdentifier (children : list Node) : option Node :=
  List.find (fun g => String.eqb (nodeType g) "identifier") children.

(** [names = append(names, grandchild.Content(source)); break] for the first
    identifier among the children of [child], if there is one. *)
Definition appendFirstIdentifier (child : Node) (source : string)
    (names : list string) : option (list string) :=
  match firstIdentifier (nodeChildren child) with
  | None => Some names
  | Some grandchild =>
      match Content grandchild (Some source) with
      | Some name => Some (names ++ [name])%list
      | None => None
      end
  end.

(** The loop of [extractNamedImports] over the children of the node. *)
Fixpoint namedImportsLoop (children : list Node) (source : string)
    (names : list string) : option (list string) :=
  match children with
  | [] => Some names
  | child :: rest =>
      if String.eqb (nodeType child) "import_specifier" then
        match appendFirstIdentifier child source names with
        | Some names' => namedImportsLoop rest source names'
        | None => None
        end
      else namedImportsLoop rest source names
  end.

(** [extractNamedImports]: the names are appended to [names]. *)
Definition extractNamedImports (node : Node) (source : string)
    (names : list string) : option (list string) :=
  namedImportsLoop (nodeChildren node) source names.

(** The loop of [extractImportClause], on the names and the default flag
    found so far. *)
Fixpoint importClauseLoop (children : list Node) (source : string)
    (names : list string) (hasDefault : bool)
  : option (list string * bool) :=
  match children with
  | [] => Some (names, hasDefault)
  | child :: rest =>
      if String.eqb (nodeType child) "identifier" then
        match Content child (Some source) with
        | Some name => importClauseLoop rest source (names ++ [name])%list true
        | None => None
        end
      else if String.eqb (nodeType child) "namespace_import" then
        match appendFirstIdentifier child source names with
        | Some names' => importClauseLoop rest source names' hasDefault
        | None => None
        end
      else if String.eqb (nodeType child) "named_imports" then
        match extractNamedImports child source names with
        | Some names' => importClauseLoop rest source names' hasDefault
        | None => None
        end
      else importClauseLoop rest source names hasDefault
  end.

(** [extractImportClause]. *)
Definition extractImportClause (node : Node) (source : string)
  : option (list string * bool) :=
  importClauseLoop (nodeChildren node) source [] false.

(** The first loop of [extractImportStatement], on the values of
    [importPath], [importedNames] and [hasDefault] so far. *)
Fixpoint importStatementLoop (children : list Node) (source : string)
    (importPath : string) (importedNames : list string) (hasDefault : bool)
  : option (string * list string * bool) :=
  match children with
  | [] => Some (importPath, importedNames, hasDefault)
  | child :: rest =>
      if String.eqb (nodeType child) "string" then
        match Content child (Some source) with
        | Some pathStr =>
            importStatementLoop rest source (Trim pathStr quoteCutset)
              importedNames hasDefault
        | None => None
        end
      else if String.eqb (nodeType child) "import_clause" then
        match extractImportClause child source with
        | Some (names, dflt) =>
            importStatementLoop rest source importPath names dflt
        | None => None
        end
      else importStatementLoop rest source importPath importedNames hasDefault
  end.

(** [file.Imports = append(file.Imports, imp)]. *)
Definition appendImport (file : File) (imp : Import) : File :=
  {| Name := Name file;
     FileName := FileName file;
     Imports := (Imports file ++ [imp])%list;
     FileType_ := FileType_ file;
     HasDefault := HasDefault file |}.

(** [file.HasDefault = true]. *)
Definition setHasDefault (file : File) : File :=
  {| Name := Name file;
     FileName := FileName file;
     Imports := Imports file;
     FileType_ := FileType_ file;
     HasDefault := true |}.

Section Extraction.

(** [classifyImportType], of either revision. *)
Variable classifyImportType : string -> ImportType.

(** The imports [extractImportStatement] appends for a path, its names and
    its default flag: one side-effect import if there is no name, else one
    import per name, the default flag going to the names equal to the first
    one. *)
Definition importsOf (importPath : string) (importedNames : list string)
    (hasDefault : bool) : list Import :=
  let importType := classifyImportType importPath in
  match importedNames with
  | [] =>
      [{| Path := importPath; ImportedName := ""; Type_ := importType;
          IsDefault := false |}]
  | first :: _ =>
      map (fun name =>
             {| Path := importPath; ImportedName := name;
                Type_ := importType;
                IsDefault := hasDefault && String.eqb name first |})
          importedNames
  end.

(** [extractImportStatement]. *)
Definition extractImportStatement (node : Node) (source : string)
    (file : File) : option File :=
  match importStatementLoop (nodeChildren node) source "" [] false with
  | None => None
  | Some (importPath, importedNames, hasDefault) =>
      if negb (String.eqb importPath "") then
        Some (fold_left appendImport
                (importsOf importPath importedNames hasDefault) file)
      else Some file
  end.

(** [checkForDefaultExport]: the text of the node is taken from the nil
    slice. *)
Definition checkForDefaultExport (node : Node) (file : File) : option File :=
  match Content node None with
  | None => None
  | Some nodeText =>
      if Str.Contains nodeText "default" then Some (setHasDefault file)
      else Some file
  end.

(** [extractImportsAndExports]. *)
Fixpoint extractImportsAndExports (node : Node) (source : string)
    (file : File) {struct node} : option File :=
  match node with
  | mkNode _ _ _ children =>
      (fix loop (children : list Node) (file : File) {struct children}
         : option File :=
         match children with
         | [] => Some file
         | child :: rest =>
             let step :=
               if String.eqb (nodeType child) "import_statement"
               then extractImportStatement child source file
               else if String.eqb (nodeType child) "export_statement"
               then checkForDefaultExport child file
               else extractImportsAndExports child source file in
             match step with
             | Some file' => loop rest file'
             | None => None
             end
         end) children file
  end.

End Extraction.

(** ** The directory pass (generate/node/import.go)

    [parseFile] and [ImportDir] return an error or a value, or they panic
    where the traversal panics: [None] stands for the panic, which nothing in
    the package recovers from. *)

Section Parsing.

(** The tree-sitter parser: [parser.ParseCtx] for a grammar and a content,
    followed by [tree.RootNode()]. *)
Variable ParseCtx : Grammar -> string -> error + Node.

(** [classifyImportType], of either revision. *)
Variable classifyImportType : string -> ImportType.

(** [parseFile]: read the file, parse it, build its [File] and run the
    traversal on the root of the tree. *)
Definition parseFile (dir filename : string) : IO (option (error + File)) :=
  let filePath := Filepath.Join [dir; filename] in
  let* r := os_ReadFile filePath in
  match r with
  | inl errno =>
      io_ret (Some (inl (Errorf_reading_file (PathError filePath errno))))
  | inr content =>
      let ext := Str.ToLower (Filepath.Ext filename) in
      match ParseCtx (grammarFor ext) content with
      | inl err => io_ret (Some (inl (Errorf_parsing ext err)))
      | inr rootNode =>
          let file := {| Name := inferPackageName dir;
                         FileName := filename;
                         FileType_ := classifyFileType filename content;
                         Imports := [];
                         HasDefault := false |} in
          match extractImportsAndExports classifyImportType rootNode content
                  file with
          | Some file' => io_ret (Some (inr file'))
          | None => io_ret None
          end
      end
  end.

(** The [for] loop of [ImportDir] over the directory entries, [ret] being the
    map built so far. *)
Fixpoint importEntries (dir : string) (files : list DirEntry)
    (ret : gmap string File) : IO (option (error + gmap string File)) :=
  match files with
  | [] => io_ret (Some (inr ret))
  | info :: rest =>
      if negb (entryIsRegular info) then importEntries dir rest ret
      else if negb (isJavaScriptFile (entryName info))
      then importEntries dir rest ret
      else
        let* r := parseFile dir (entryName info) in
        match r with
        | None => io_ret None
        | Some (inl err) =>
            io_ret (Some (inl (Errorf_parsing (entryName info) err)))
        | Some (inr f) =>
            importEntries dir rest (<[entryName info := f]> ret)
        end
  end.

(** [ImportDir]: parse all JavaScript/TypeScript files of a directory. *)
Definition ImportDir (dir : string)
  : IO (option (error + gmap string File)) :=
  let* r := os_ReadDir dir in
  match r with
  | inl errno => io_ret (Some (inl (PathError dir errno)))
  | inr files => importEntries dir files ∅
  end.

End Parsing.

(** ** Vocabulary of the properties *)

(** A path element without separator. *)
Fixpoint noSlash (e : string) : bool :=
  match e with
  | EmptyString => true
  | String c rest => negb (Filepath.IsPathSeparator c) && noSlash rest
  end.

(** The elements [Clean] keeps: not empty, not [.], without separator. *)
Definition isName (e : string) : bool :=
  negb (String.eqb e "") && negb (String.eqb e ".") && noSlash e.

(** The outputs of [Clean]'s scan, top first: real names above the [..]
    elements a path that is not rooted begins with. *)
Definition cleanStack (rooted : bool) (out : list string) : Prop :=
  exists reals dotdots : list string,
    out = (reals ++ dotdots)%list /\
    Forall (fun e => isName e = true /\ e <> "..") reals /\
    Forall (fun e => e = "..") dotdots /\
    (rooted = true -> dotdots = []).

(** The thirteen paths [ResolveRelativeImport] may pass to [Stat], in the
    order of the calls: the joined path, the extension candidates and the
    index candidates. *)
Definition resolveCandidates (joined : string) : list string :=
  joined ::
  (map (fun ext => (joined ++ ext)%string) WithResolver.jsExtensions ++
   map (fun ext => (Filepath.Join [joined; "index"] ++ ext)%string)
       WithResolver.jsExtensions)%list.

(** A string of bytes of the cutset, and a string that begins or ends with
    a byte of the cutset. *)
Fixpoint allInCutset (s cutset : string) : bool :=
  match s with
  | EmptyString => true
  | String c rest => inCutset c cutset && allInCutset rest cutset
  end.

Definition startsInCutset (s cutset : string) : bool :=
  match s with
  | EmptyString => false
  | String c _ => inCutset c cutset
  end.

Fixpoint endsInCutset (s cutset : string) : bool :=
  match s with
  | EmptyString => false
  | String c EmptyString => inCutset c cutset
  | String _ rest => endsInCutset rest cutset
  end.

(** What holds of every import the extraction appends: its path is not
    empty, has no quote at either end, and its kind is the classification of
    its path. *)
Definition extractedImport (classify : string -> ImportType) (imp : Import)
  : Prop :=
  Path imp <> "" /\
  startsInCutset (Path imp) quoteCutset = false /\
  endsInCutset (Path imp) quoteCutset = false /\
  Type_ imp = classify (Path imp).

(** The loop of [extractImportsAndExports] over a list of children. *)
Fixpoint extractChildren (classify : string -> ImportType)
    (children : list Node) (source : string) (file : File) : option File :=
  match children with
  | [] => Some file
  | child :: rest =>
      let step :=
        if String.eqb (nodeType child) "import_statement"
        then extractImportStatement classify child source file
        else if String.eqb (nodeType child) "export_statement"
        then checkForDefaultExport child file
        else extractImportsAndExports classify child source file in
      match step with
      | Some file' => extractChildren classify rest source file'
      | None => None
      end
  end.

(** The spans of a node and of all nodes below it lie within the source. *)
Fixpoint spansWithin (source : string) (n : Node) : bool :=
  match n with
  | mkNode _ startByte endByte children =>
      (startByte <=? endByte)%nat &&
      (endByte <=? String.length source)%nat &&
      forallb (spansWithin source) children
  end.

(** The traversal of [extractImportsAndExports] reaches an export statement
    with a non-empty span: it descends into every child that is neither an
    import nor an export statement. *)
Fixpoint reachesExport (n : Node) : bool :=
  match n with
  | mkNode _ _ _ children =>
      existsb (fun child =>
                 if String.eqb (nodeType child) "import_statement" then false
                 else if String.eqb (nodeType child) "export_statement"
                 then (0 <? endByte child)%nat
                 else reachesExport child)
              children
  end.

(** No name of the allow-list begins with a dot (module names are not
    paths). *)
Definition noDotNames (allowList : list string) : bool :=
  forallb (fun b => negb (Str.HasPrefix b ".")) allowList.

(** The extensions named by the asset branch of [classifyImportType]. *)
Definition assetExtensions : list string :=
  [".css"; ".scss"; ".less"; ".json"; ".png"; ".jpg"; ".svg"; ".gif"].

Definition isAssetExtension (ext : string) : bool :=
  existsb (String.eqb ext) assetExtensions.

(** The entries [ImportDir] parses: regular files with a JavaScript or
    TypeScript extension. *)
Definition isSourceEntry (info : DirEntry) : bool :=
  entryIsRegular info && isJavaScriptFile (entryName info).

(** The [ReadFile] calls [ImportDir] makes for a list of entries. *)
Definition readsOf (dir : string) (files : list DirEntry) : list Syscall :=
  map (fun info => SysReadFile (Filepath.Join [dir; entryName info]))
      (List.filter isSourceEntry files).

(** ** Sample inputs *)

(** An allow-list with the builtin names the tests of [IsNodeBuiltin] use. *)
Definition sampleAllowList : list string := ["fs"; "path"; "crypto"; "util"].

(** [Stat] in a tree given by its regular files and its directories (clean
    absolute paths): a nil error for a path of the tree, [ENOTDIR] for a path
    below a regular file, [ENOENT] otherwise. *)
Definition statIn (files dirs : list string) (name : string)
  : option Errno :=
  if existsb (String.eqb name) (files ++ dirs)%list then None
  else if existsb (fun f => Str.HasPrefix name (f ++ "/")) files
  then Some ENOTDIR
  else Some ENOENT.

(** The content of a regular file of the tree. *)
Fixpoint contentIn (files : list (string * string)) (name : string)
  : Errno + string :=
  match files with
  | [] => inl ENOENT
  | (p, c) :: rest => if String.eqb p name then inr c else contentIn rest name
  end.

(** The entries of a directory of the tree, files first. *)
Definition entriesIn (files dirs : list string) (dir : string)
  : Errno + list DirEntry :=
  if existsb (String.eqb dir) dirs then
    inr (map (fun p => mkDirEntry (Filepath.Base p) true)
             (List.filter (fun p => String.eqb (Filepath.Dir p) dir) files) ++
         map (fun p => mkDirEntry (Filepath.Base p) false)
             (List.filter (fun p => String.eqb (Filepath.Dir p) dir &&
                               negb (String.eqb p dir)) dirs))%list
  else inl ENOENT.

(** The world of a tree. *)
Definition treeWorld (files : list (string * string)) (dirs : list string)
  : World :=
  {| Stat := statIn (map fst files) dirs;
     ReadDir := entriesIn (map fst files) dirs;
     ReadFile := contentIn files |}.

(** /p holds a.js and lib/ (with a BUILD file and index.ts). *)
Definition sampleTree : World :=
  treeWorld [("/p/a.js", "import x from './lib'");
             ("/p/lib/BUILD", "");
             ("/p/lib/index.ts", "export default 1")]
            ["/"; "/p"; "/p/lib"].

(** The same tree before /p/lib/BUILD is written. *)
Definition sampleTreeNoBuild : World :=
  treeWorld [("/p/a.js", "import x from './lib'");
             ("/p/lib/index.ts", "export default 1")]
            ["/"; "/p"; "/p/lib"].

(** A tree with nothing but the root, as the tests of the resolver see it. *)
Definition emptyTree : World := treeWorld [] ["/"].

Definition sampleFile : File :=
  {| Name := "p"; FileName := "a.js"; Imports := [];
     FileType_ := Library; HasDefault := false |}.

(** A source with a default and two named imports, a namespace import and
    a side-effect import, and its syntax tree. *)
Definition sampleSource : string :=
  "import d, { a as b, c } from './lib'; import * as ns from 'fs'; import 'side.css'".

Definition sampleSyntaxTree : Node :=
  mkNode "program" 0 81
    [
      mkNode "import_statement" 0 37
        [
          mkNode "import" 0 6 [];
          mkNode "import_clause" 7 23
            [
              mkNode "identifier" 7 8 [];
              mkNode "," 8 9 [];
              mkNode "named_imports" 10 23
                [
                  mkNode "{" 10 11 [];
                  mkNode "import_specifier" 12 18
                    [
                      mkNode "identifier" 12 13 [];
                      mkNode "as" 14 16 [];
                      mkNode "identifier" 17 18 [] ];
                  mkNode "," 18 19 [];
                  mkNode "import_specifier" 20 21
                    [
                      mkNode "identifier" 20 21 [] ];
                  mkNode "}" 22 23 [] ] ];
          mkNode "from" 24 28 [];
          mkNode "string" 29 36 [];
          mkNode ";" 36 37 [] ];
      mkNode "import_statement" 38 63
        [
          mkNode "import" 38 44 [];
          mkNode "import_clause" 45 52
            [
              mkNode "namespace_import" 45 52
                [
                  mkNode "*" 45 46 [];
                  mkNode "as" 47 49 [];
                  mkNode "identifier" 50 52 [] ] ];
          mkNode "from" 53 57 [];
          mkNode "string" 58 62 [];
          mkNode ";" 62 63 [] ];
      mkNode "import_statement" 64 81
        [
          mkNode "import" 64 70 [];
          mkNode "string" 71 81 [] ] ].

(** A source with a default export, and its syntax tree. *)
Definition sampleExportSource : string := "export default 1".

Definition sampleExportTree : Node :=
  mkNode "program" 0 16
    [ mkNode "export_statement" 0 16
        [ mkNode "export" 0 6 [];
          mkNode "default" 7 14 [];
          mkNode "number" 15 16 [] ] ].

(** The parser on the samples.  The two sample sources have their sample
    trees and the empty file has the tree of a program without statements.
    The parser reports bad syntax inside the tree, never as an error: every
    other content, which no sample directory holds, has the tree of a program
    that is one [ERROR] node. *)
Definition sampleParseCtx (g : Grammar) (content : string) : error + Node :=
  if String.eqb content sampleSource then inr sampleSyntaxTree
  else if String.eqb content sampleExportSource then inr sampleExportTree
  else if String.eqb content "" then inr (mkNode "program" 0 0 [])
  else inr (mkNode "program" 0 (String.length content)
              [mkNode "ERROR" 0 (String.length content) []]).

(** /q holds the source files a.js (the sample source), b.js (the same) and
    c.ts (empty), a text file and a directory. *)
Definition sampleSourceDir : World :=
  treeWorld [("/q/a.js", sampleSource);
             ("/q/b.js", sampleSource);
             ("/q/c.ts", "");
             ("/q/notes.txt", "")]
            ["/"; "/q"; "/q/sub"].

(** The same directory with a b.js that may not be read: [ReadFile] fails on
    it with [EACCES]. *)
Definition sampleUnreadableDir : World :=
  {| Stat := Stat sampleSourceDir;
     ReadDir := ReadDir sampleSourceDir;
     ReadFile := fun name =>
                   if String.eqb name "/q/b.js" then inl EACCES
                   else ReadFile sampleSourceDir name |}.

(** /q with a b.js that has a default export. *)
Definition sampleExportDir : World :=
  treeWorld [("/q/a.js", sampleSource);
             ("/q/b.js", sampleExportSource);
             ("/q/c.ts", "")]
            ["/"; "/q"].

(** * Properties *)

(** ** Clean paths *)

Lemma append_cons :
  forall (c : ascii) (a b : string), String c a ++ b = String c (a ++ b).
Proof.
  reflexivity.
Qed.

(** Splitting what was joined. *)
Lemma splitSlash_name :
  forall e : string, noSlash e = true -> Filepath.splitSlash e = [e].
Proof.
  induction e as [|c e IH]; intros H; [reflexivity|].
  cbn [noSlash] in H. apply andb_true_iff in H as [Hc He].
  apply negb_true_iff in Hc.
  cbn [Filepath.splitSlash]. rewrite Hc, (IH He). reflexivity.
Qed.

Lemma splitSlash_append :
  forall e rest : string,
    noSlash e = true ->
    Filepath.splitSlash (e ++ String "/" rest) = e :: Filepath.splitSlash rest.
Proof.
  induction e as [|c e IH]; intros rest H; [reflexivity|].
  cbn [noSlash] in H. apply andb_true_iff in H as [Hc He].
  apply negb_true_iff in Hc.
  rewrite append_cons.
  cbn [Filepath.splitSlash]. rewrite Hc, (IH rest He). reflexivity.
Qed.

Lemma splitSlash_concat :
  forall (e : string) (es : list string),
    Forall (fun x => noSlash x = true) (e :: es) ->
    Filepath.splitSlash (String.concat "/" (e :: es)) = e :: es.
Proof.
  intros e es. revert e.
  induction es as [|e' es IH]; intros e H.
  - apply splitSlash_name. now inversion H.
  - inversion H as [|? ? He Hes]; subst.
    change (String.concat "/" (e :: e' :: es))
      with (e ++ String "/" (String.concat "/" (e' :: es))).
    rewrite (splitSlash_append _ _ He), (IH e' Hes). reflexivity.
Qed.

Lemma splitSlash_noSlash :
  forall p : string, Forall (fun x => noSlash x = true) (Filepath.splitSlash p).
Proof.
  induction p as [|c p IH]; [repeat constructor|].
  cbn [Filepath.splitSlash].
  destruct (Filepath.IsPathSeparator c) eqn:Hc; [now constructor|].
  destruct (Filepath.splitSlash p) as [|e es]; [repeat constructor|].
  - cbn. now rewrite Hc.
  - inversion IH; subst. constructor; [|assumption].
    cbn. now rewrite Hc.
Qed.

Lemma real_step :
  forall (rooted : bool) (out : list string) (e : string),
    isName e = true -> e <> ".." ->
    Filepath.cleanStep rooted out e = e :: out.
Proof.
  intros rooted out e Hname Hdd.
  unfold isName in Hname.
  apply andb_true_iff in Hname as [Hname _].
  apply andb_true_iff in Hname as [H1 H2].
  apply negb_true_iff in H1, H2.
  apply String.eqb_neq in Hdd.
  unfold Filepath.cleanStep.
  now rewrite H1, H2, Hdd.
Qed.

Lemma cleanStep_stack :
  forall (rooted : bool) (out : list string) (e : string),
    noSlash e = true ->
    cleanStack rooted out ->
    cleanStack rooted (Filepath.cleanStep rooted out e).
Proof.
  intros rooted out e Hslash (reals & dds & -> & Hreals & Hdds & Hroot).
  unfold Filepath.cleanStep.
  destruct (String.eqb e "" || String.eqb e ".") eqn:Hskip.
  { now exists reals, dds. }
  apply orb_false_iff in Hskip as [H1 H2].
  destruct (String.eqb_spec e "..") as [->|Hdd].
  - destruct reals as [|top reals].
    + cbn [app].
      destruct dds as [|top dds].
      * destruct rooted.
        -- now exists [], [].
        -- exists [], [".."].
           split; [reflexivity|].
           split; [constructor|].
           split; [now repeat constructor|].
           intros H; discriminate H.
      * inversion Hdds as [|? ? Htop Hdds']; subst.
        cbn. exists [], (".." :: ".." :: dds).
        split; [reflexivity|].
        split; [constructor|].
        split; [now repeat constructor|].
        intros Hr. discriminate (Hroot Hr).
    + inversion Hreals as [|? ? [Htop Hne] Hreals']; subst.
      cbn [app].
      apply String.eqb_neq in Hne. rewrite Hne.
      now exists reals, dds.
  - exists (e :: reals), dds.
    split; [reflexivity|].
    split; [|now split].
    constructor; [|assumption].
    split; [|assumption].
    unfold isName. now rewrite H1, H2, Hslash.
Qed.

Lemma fold_cleanStep_stack :
  forall (rooted : bool) (es out : list string),
    Forall (fun x => noSlash x = true) es ->
    cleanStack rooted out ->
    cleanStack rooted (fold_left (Filepath.cleanStep rooted) es out).
Proof.
  intros rooted es.
  induction es as [|e es IH]; intros out Hes Hout; [exact Hout|].
  inversion Hes; subst.
  cbn [fold_left].
  apply IH; [assumption|].
  now apply cleanStep_stack.
Qed.

Lemma fold_reals :
  forall (rooted : bool) (reals out : list string),
    Forall (fun e => isName e = true /\ e <> "..") reals ->
    fold_left (Filepath.cleanStep rooted) reals out = (rev reals ++ out)%list.
Proof.
  intros rooted reals.
  induction reals as [|e reals IH]; intros out H; [reflexivity|].
  inversion H as [|? ? [Hname Hdd] Hrest]; subst.
  cbn [fold_left rev].
  rewrite (real_step rooted out e Hname Hdd), (IH _ Hrest).
  now rewrite <- app_assoc.
Qed.

Lemma fold_dotdots :
  forall dds out : list string,
    Forall (fun e => e = "..") dds ->
    Forall (fun e => e = "..") out ->
    fold_left (Filepath.cleanStep false) dds out = (rev dds ++ out)%list.
Proof.
  induction dds as [|e dds IH]; intros out Hdds Hout; [reflexivity|].
  inversion Hdds as [|? ? -> Hrest]; subst.
  cbn [fold_left rev].
  assert (Hstep : Filepath.cleanStep false out ".." = ".." :: out).
  { destruct out as [|top out]; [reflexivity|].
    inversion Hout as [|? ? -> _]; subst. reflexivity. }
  rewrite Hstep, IH; [now rewrite <- app_assoc | assumption | now constructor].
Qed.

(** Scanning the output of a scan again gives the same output. *)
Lemma fold_cleanStack :
  forall (rooted : bool) (out : list string),
    cleanStack rooted out ->
    fold_left (Filepath.cleanStep rooted) (rev out) [] = out.
Proof.
  intros rooted out (reals & dds & -> & Hreals & Hdds & Hroot).
  rewrite rev_app_distr, fold_left_app.
  rewrite fold_reals by now apply Forall_rev.
  rewrite rev_involutive. f_equal.
  destruct rooted.
  - now rewrite (Hroot eq_refl).
  - rewrite fold_dotdots; [|now apply Forall_rev|constructor].
    now rewrite rev_involutive, app_nil_r.
Qed.

Lemma cleanStack_names :
  forall (rooted : bool) (out : list string),
    cleanStack rooted out -> Forall (fun e => isName e = true) out.
Proof.
  intros rooted out (reals & dds & -> & Hreals & Hdds & _).
  apply Forall_app. split.
  - eapply List.Forall_impl; [|exact Hreals]. now intros e [H _].
  - eapply List.Forall_impl; [|exact Hdds]. now intros e ->.
Qed.

Lemma isName_head :
  forall e : string,
    isName e = true ->
    noSlash e = true /\
    exists (c : ascii) (rest : string),
      e = String c rest /\ Filepath.IsPathSeparator c = false.
Proof.
  intros e H.
  unfold isName in H.
  apply andb_true_iff in H as [H Hslash].
  apply andb_true_iff in H as [Hne _].
  split; [exact Hslash|].
  destruct e as [|c rest]; [discriminate Hne|].
  exists c, rest. split; [reflexivity|].
  cbn [noSlash] in Hslash.
  apply andb_true_iff in Hslash as [Hc _].
  now apply negb_true_iff in Hc.
Qed.

(** [Clean] leaves what it has rendered as it is. *)
Lemma Clean_render :
  forall (rooted : bool) (out : list string),
    cleanStack rooted out ->
    let body := String.concat "/" (rev out) in
    let path := if rooted then String "/" body
                else if String.eqb body "" then "." else body in
    Filepath.Clean path = path.
Proof.
  intros rooted out Hstack body path.
  pose proof (fold_cleanStack rooted out Hstack) as Hfold.
  pose proof (cleanStack_names rooted out Hstack) as Hnames.
  apply Forall_rev in Hnames.
  subst path body.
  destruct (rev out) as [|e es] eqn:Hrev.
  - destruct rooted; reflexivity.
  - assert (Hslash : Forall (fun x => noSlash x = true) (e :: es)).
    { eapply List.Forall_impl; [|exact Hnames].
      intros x Hx. now apply isName_head in Hx. }
    pose proof (splitSlash_concat e es Hslash) as Hsplit.
    pose proof (List.Forall_inv Hnames) as He.
    cbv beta in He.
    destruct (isName_head e He) as (_ & c & rest & -> & Hc).
    assert (Hbody : exists tail : string,
               String.concat "/" (String c rest :: es) = String c tail).
    { destruct es as [|e' es'];
        [now exists rest|].
      now exists (rest ++ String "/" (String.concat "/" (e' :: es'))). }
    destruct Hbody as [tail Hbody].
    destruct rooted.
    + unfold Filepath.Clean.
      change (Filepath.IsPathSeparator "/") with true.
      change (Filepath.splitSlash
                (String "/" (String.concat "/" (String c rest :: es))))
        with ("" :: Filepath.splitSlash
                      (String.concat "/" (String c rest :: es))).
      rewrite Hsplit.
      change (fold_left (Filepath.cleanStep true)
                ("" :: String c rest :: es) [])
        with (fold_left (Filepath.cleanStep true) (String c rest :: es) []).
      rewrite Hfold, Hrev. reflexivity.
    + rewrite Hbody in *.
      change (String.eqb (String c tail) "") with false.
      cbv iota.
      unfold Filepath.Clean.
      rewrite Hc, Hsplit, Hfold, Hrev, Hbody.
      reflexivity.
Qed.

(** [filepath.Clean] is idempotent. *)
Lemma Clean_idempotent :
  forall path : string,
    Filepath.Clean (Filepath.Clean path) = Filepath.Clean path.
Proof.
  intros [|c rest]; [reflexivity|].
  unfold Filepath.Clean at 2.
  apply (Clean_render (Filepath.IsPathSeparator c)).
  apply fold_cleanStep_stack; [apply splitSlash_noSlash|].
  exists [], []. now repeat split.
Qed.

(** [filepath.Join] returns a clean path: cleaning it again, as
    [ResolveRelativeImport] does, changes nothing. *)
Lemma Clean_Join :
  forall dir path : string,
    path <> "" ->
    Filepath.Clean (Filepath.Join [dir; path]) = Filepath.Join [dir; path].
Proof.
  intros dir path Hne.
  apply String.eqb_neq in Hne.
  cbn [Filepath.Join].
  rewrite Hne.
  destruct (String.eqb dir ""); apply Clean_idempotent.
Qed.


(** ** Dependency resolution *)

(** C7: for every import whose kind is builtin, [ResolveDependency] returns
    the empty target and no error, in every world and without any call to the
    file system. *)
Theorem ResolveDependency_builtin :
  forall (f : File) (imp : Import) (currentDir : string) (w : World),
    Type_ imp = BuiltinImport ->
    run (WithResolver.ResolveDependency f imp currentDir) w = (inr "", []).
Proof.
  intros f imp currentDir w Hkind.
  unfold WithResolver.ResolveDependency.
  rewrite Hkind.
  reflexivity.
Qed.

Lemma ResolveDependency_builtin_fs :
  let imp :=
    mkImport "fs" "readFile"
             (WithResolver.classifyImportType sampleAllowList "fs") false in
  Type_ imp = BuiltinImport /\
  run (WithResolver.ResolveDependency sampleFile imp "/p") sampleTree
  = (inr "", []).
Proof.
  split; [reflexivity|].
  apply (ResolveDependency_builtin sampleFile
           (mkImport "fs" "readFile"
              (WithResolver.classifyImportType sampleAllowList "fs") false)
           "/p" sampleTree).
  reflexivity.
Defined.

(** C8, as the code has it: for every bare (external) import,
    [ResolveDependency] returns no target but the error "bare import
    resolution not implemented" for the import path, in every world and
    without any call to the file system; no override is consulted. *)
Theorem ResolveDependency_bare_not_implemented :
  forall (f : File) (imp : Import) (currentDir : string) (w : World),
    Type_ imp = BareImport ->
    run (WithResolver.ResolveDependency f imp currentDir) w
    = (inl (Errorf_bare_import_resolution_not_implemented (Path imp)), []).
Proof.
  intros f imp currentDir w Hkind.
  unfold WithResolver.ResolveDependency.
  rewrite Hkind.
  reflexivity.
Qed.

Lemma ResolveDependency_bare_react :
  Type_ (mkImport "react" "React" BareImport true) = BareImport /\
  run (WithResolver.ResolveDependency sampleFile
         (mkImport "react" "React" BareImport true) "/p") sampleTree
  = (inl (Errorf_bare_import_resolution_not_implemented "react"), []).
Proof.
  split; [reflexivity|].
  apply (ResolveDependency_bare_not_implemented sampleFile
           (mkImport "react" "React" BareImport true) "/p" sampleTree).
  reflexivity.
Defined.

(** C8 fails as stated: the bare import of lodash resolves to no target in
    the sample tree. *)
Lemma ResolveDependency_bare_lodash_no_target :
  ~ exists target : string,
      fst (run (WithResolver.ResolveDependency sampleFile
                  (mkImport "lodash" "_" BareImport true) "/p") sampleTree)
      = inr target.
Proof.
  intros [target H].
  discriminate H.
Qed.

(** ** Build targets *)

(** C9, as the code has it: [FindPackageTarget] makes one [Stat] call, on
    the BUILD file of the directory; it returns the empty target when that
    file is reported missing and otherwise [//] followed by the base name of
    the directory, which depends on the directory path alone. *)
Theorem FindPackageTarget_spec :
  forall (dir : string) (w : World),
    run (WithResolver.FindPackageTarget dir) w
    = (inr (if os_IsNotExist (Stat w (Filepath.Join [dir; "BUILD"]))
            then ""
            else "//" ++ Filepath.Base dir),
       [SysStat (Filepath.Join [dir; "BUILD"])]).
Proof.
  intros dir w.
  unfold WithResolver.FindPackageTarget, run, io_bind, os_Stat.
  destruct (os_IsNotExist (Stat w (Filepath.Join [dir; "BUILD"])));
    reflexivity.
Qed.

(** C9 fails as stated: the target of /p/lib is [//lib] with its BUILD file
    and empty without it. *)
Lemma FindPackageTarget_depends_on_BUILD :
  fst (run (WithResolver.FindPackageTarget "/p/lib") sampleTree)
  = inr "//lib" /\
  fst (run (WithResolver.FindPackageTarget "/p/lib") sampleTreeNoBuild)
  = inr "" /\
  fst (run (WithResolver.FindPackageTarget "/p/lib") sampleTree)
  <> fst (run (WithResolver.FindPackageTarget "/p/lib") sampleTreeNoBuild).
Proof.
  repeat split; try reflexivity.
  vm_compute.
  discriminate.
Qed.

(** ** Relative imports *)

(** C10: [ResolveRelativeImport] answers the empty path with the error
    "empty import path" and every other path that is not relative with the
    error "not a relative import", in every world and without any call to the
    file system. *)
Theorem ResolveRelativeImport_rejects :
  forall (currentDir : string) (w : World),
    run (WithResolver.ResolveRelativeImport currentDir "") w
    = (inl Errorf_empty_import_path, []) /\
    forall importPath : string,
      importPath <> "" ->
      isRelativePath importPath = false ->
      run (WithResolver.ResolveRelativeImport currentDir importPath) w
      = (inl (Errorf_not_a_relative_import importPath), []).
Proof.
  intros currentDir w.
  split; [reflexivity|].
  intros importPath Hne Hrel.
  unfold WithResolver.ResolveRelativeImport.
  apply String.eqb_neq in Hne.
  rewrite Hne, Hrel.
  reflexivity.
Qed.

Lemma ResolveRelativeImport_rejects_lodash :
  "lodash" <> "" /\ isRelativePath "lodash" = false /\
  run (WithResolver.ResolveRelativeImport "/project/src" "lodash") sampleTree
  = (inl (Errorf_not_a_relative_import "lodash"), []).
Proof.
  split; [discriminate|].
  split; [reflexivity|].
  apply (proj2 (ResolveRelativeImport_rejects "/project/src" sampleTree)).
  - discriminate.
  - reflexivity.
Defined.

(** The result of the candidate loop: the first candidate, in the order of
    the extension list, whose [Stat] has a nil error; every candidate up to
    it is passed to [Stat], and none after it. *)
Lemma firstStatOk_spec :
  forall (base : string) (exts : list string) (w : World)
         (log : list Syscall),
    exists tried : list string,
      WithResolver.firstStatOk base exts w log
      = (List.find (fun q => bool_decide (Stat w q = None))
                   (map (fun ext => base ++ ext) exts),
         (log ++ map SysStat tried)%list) /\
      exists rest : list string,
        map (fun ext => base ++ ext) exts = (tried ++ rest)%list.
Proof.
  intros base exts w.
  induction exts as [|ext exts IH]; intros log.
  - exists []. split.
    + simpl. unfold io_ret. now rewrite app_nil_r.
    + now exists [].
  - simpl. unfold io_bind, os_Stat.
    destruct (Stat w (base ++ ext)) as [e|] eqn:Hstat.
    + destruct (IH (log ++ [SysStat (base ++ ext)])%list)
        as (tried & Hrun & rest & Hsplit).
      exists ((base ++ ext) :: tried). split.
      * rewrite Hrun. rewrite bool_decide_eq_false_2 by congruence.
        simpl. now rewrite <- app_assoc.
      * exists rest. simpl. now rewrite Hsplit.
    + exists [base ++ ext]. split.
      * rewrite bool_decide_eq_true_2 by reflexivity. reflexivity.
      * now exists (map (fun ext0 => base ++ ext0) exts).
Qed.

(** What [ResolveRelativeImport] returns for a relative path, for every
    answer of [Stat]: the joined path unless [Stat] reports it missing; else
    the first extension candidate with a nil error; else the first index
    candidate with a nil error; else the resolution error. *)
Lemma ResolveRelativeImport_relative :
  forall (currentDir importPath : string) (w : World),
    isRelativePath importPath = true ->
    let joined := Filepath.Join [currentDir; importPath] in
    let ok := fun q => bool_decide (Stat w q = None) in
    fst (run (WithResolver.ResolveRelativeImport currentDir importPath) w)
    = if os_IsNotExist (Stat w joined) then
        match List.find ok (map (fun ext => joined ++ ext)
                                WithResolver.jsExtensions) with
        | Some q => inr q
        | None =>
            match List.find ok
                    (map (fun ext => Filepath.Join [joined; "index"] ++ ext)
                         WithResolver.jsExtensions) with
            | Some q => inr q
            | None =>
                inl (Errorf_could_not_resolve_import importPath currentDir)
            end
        end
      else inr joined.
Proof.
  intros currentDir importPath w Hrel joined ok.
  assert (Hne : String.eqb importPath "" = false).
  { destruct importPath; [discriminate Hrel | reflexivity]. }
  unfold WithResolver.ResolveRelativeImport, run.
  rewrite Hne, Hrel.
  rewrite Clean_Join by now apply String.eqb_neq.
  fold joined.
  unfold io_bind at 1. unfold os_Stat at 1.
  destruct (os_IsNotExist (Stat w joined)); [|reflexivity].
  unfold io_bind at 1.
  destruct (firstStatOk_spec joined WithResolver.jsExtensions w
              ([] ++ [SysStat joined])%list)
    as (tried1 & Hrun1 & _).
  rewrite Hrun1. fold ok.
  destruct (List.find ok _) as [q|]; [reflexivity|].
  unfold io_bind at 1.
  destruct (firstStatOk_spec (Filepath.Join [joined; "index"])
              WithResolver.jsExtensions w
              (([] ++ [SysStat joined]) ++ map SysStat tried1)%list)
    as (tried2 & Hrun2 & _).
  rewrite Hrun2. fold ok.
  destruct (List.find ok _) as [q|]; reflexivity.
Qed.

(** C2 at a path below a regular file: /p/a.js is a regular file, so nothing
    exists at /p/a.js/b, at /p/a.js/b with any extension or at an index file
    below it, and [Stat] fails with [ENOTDIR]; [ResolveRelativeImport]
    nevertheless resolves ./a.js/b from /p to /p/a.js/b, after that one
    [Stat] call. *)
Theorem ResolveRelativeImport_below_regular_file :
  Stat sampleTree "/p/a.js/b" = Some ENOTDIR /\
  List.find (fun q => bool_decide (Stat sampleTree q = None))
       (map (fun ext => ("/p/a.js/b" ++ ext)%string)
            WithResolver.jsExtensions
        ++ map (fun ext => ("/p/a.js/b/index" ++ ext)%string)
               WithResolver.jsExtensions)%list = None /\
  run (WithResolver.ResolveRelativeImport "/p" "./a.js/b") sampleTree
  = (inr "/p/a.js/b", [SysStat "/p/a.js/b"]).
Proof.
  repeat split.
Qed.

(** With a [Stat] that answers the joined path by a nil error or by
    "missing", [ResolveRelativeImport] resolves as specified: to the joined
    path if it exists, else to the first existing extension candidate, else
    to the first existing index candidate, else to the resolution error. *)
Lemma ResolveRelativeImport_decisive :
  forall (currentDir importPath : string) (w : World),
    isRelativePath importPath = true ->
    let joined := Filepath.Join [currentDir; importPath] in
    let ok := fun q => bool_decide (Stat w q = None) in
    Stat w joined = None \/ Stat w joined = Some ENOENT ->
    fst (run (WithResolver.ResolveRelativeImport currentDir importPath) w)
    = if ok joined then inr joined
      else
        match List.find ok (map (fun ext => joined ++ ext)
                                WithResolver.jsExtensions) with
        | Some q => inr q
        | None =>
            match List.find ok
                    (map (fun ext => Filepath.Join [joined; "index"] ++ ext)
                         WithResolver.jsExtensions) with
            | Some q => inr q
            | None =>
                inl (Errorf_could_not_resolve_import importPath currentDir)
            end
        end.
Proof.
  intros currentDir importPath w Hrel joined ok Hstat.
  rewrite (ResolveRelativeImport_relative currentDir importPath w Hrel).
  fold joined. fold ok.
  unfold ok at 3.
  destruct Hstat as [Hstat | Hstat]; rewrite Hstat; reflexivity.
Qed.

(** Any error of [Stat] other than "missing" on the joined path makes
    [ResolveRelativeImport] return that path as resolved. *)
Lemma ResolveRelativeImport_stat_error :
  forall (currentDir importPath : string) (w : World) (e : Errno),
    isRelativePath importPath = true ->
    Stat w (Filepath.Join [currentDir; importPath]) = Some e ->
    e <> ENOENT ->
    fst (run (WithResolver.ResolveRelativeImport currentDir importPath) w)
    = inr (Filepath.Join [currentDir; importPath]).
Proof.
  intros currentDir importPath w e Hrel Hstat He.
  rewrite (ResolveRelativeImport_relative currentDir importPath w Hrel).
  rewrite Hstat.
  destruct e; try reflexivity.
  now contradiction He.
Qed.

(** ** File roles *)

(** Case analysis on the test-pattern condition of [classifyFileType]. *)
Ltac destruct_test_patterns :=
  match goal with
  | |- context [if ?c then Test else _] => destruct c
  end.

(** The test patterns of [classifyFileType], on the lower-cased name. *)
Lemma classifyFileType_Test_iff :
  forall filename content : string,
    classifyFileType filename content = Test <->
    (let base := Str.ToLower filename in
     Str.Contains base ".test." || Str.Contains base ".spec." ||
     Str.HasSuffix base "_test.js" || Str.HasSuffix base "_test.ts" ||
     Str.HasSuffix base ".test.js" || Str.HasSuffix base ".test.ts" ||
     Str.HasSuffix base ".spec.js" || Str.HasSuffix base ".spec.ts") = true.
Proof.
  intros filename content.
  unfold classifyFileType.
  cbv zeta.
  destruct_test_patterns.
  - split; intros _; reflexivity.
  - split; [|intros H; discriminate H].
    destruct (_ && _); intros H; discriminate H.
Qed.

(** C5 at foo_test.tsx and foo_test.jsx: both names match the glob with the
    underscore, and neither is given the test role, whatever the content;
    A.SPEC.mjs is. *)
Theorem classifyFileType_underscore_test_tsx :
  forall content : string,
    classifyFileType "foo_test.tsx" content <> Test /\
    classifyFileType "foo_test.jsx" content <> Test /\
    classifyFileType "A.SPEC.mjs" content = Test.
Proof.
  intros content.
  repeat split.
  - rewrite classifyFileType_Test_iff. vm_compute. discriminate.
  - rewrite classifyFileType_Test_iff. vm_compute. discriminate.
Qed.

(** A file that is not a test and whose content has more than two bytes, the
    first two being the shebang, is a binary. *)
Lemma classifyFileType_shebang :
  forall (filename rest : string) (c : ascii),
    classifyFileType filename "" <> Test ->
    classifyFileType filename (String "#" (String "!" (String c rest)))
    = Binary.
Proof.
  intros filename rest c Hnot.
  unfold classifyFileType in *.
  cbv zeta in *.
  destruct_test_patterns.
  - now contradiction Hnot.
  - reflexivity.
Qed.

(** C6 at the content of exactly the two bytes of the shebang: no file with
    that content is given the binary role; run.js, which is not a test, is a
    library. *)
Theorem classifyFileType_two_byte_shebang :
  (forall filename : string, classifyFileType filename "#!" <> Binary) /\
  classifyFileType "run.js" "#!" = Library.
Proof.
  split; [|reflexivity].
  intros filename.
  unfold classifyFileType.
  cbv zeta.
  destruct_test_patterns; simpl; discriminate.
Qed.

(** ** Import classification *)

Lemma prefix_append :
  forall a s : string, String.prefix a (a ++ s) = true.
Proof.
  induction a as [|c a IH]; intros s; simpl.
  - now destruct s.
  - destruct (Ascii.ascii_dec c c) as [_|Hc]; [apply IH | now contradiction Hc].
Qed.

Lemma append_assoc :
  forall a b c : string, (a ++ b) ++ c = a ++ (b ++ c).
Proof.
  induction a as [|x a IH]; intros b c; [reflexivity|].
  change (String x ((a ++ b) ++ c) = String x (a ++ (b ++ c))).
  now rewrite IH.
Qed.

Lemma substring_all :
  forall s : string, String.substring 0 (String.length s) s = s.
Proof.
  induction s as [|c s IH]; simpl; [reflexivity | now rewrite IH].
Qed.

Lemma prefix_cons :
  forall (a b : ascii) (s1 s2 : string),
    String.prefix (String a s1) (String b s2)
    = (Ascii.eqb a b && String.prefix s1 s2).
Proof.
  intros a b s1 s2.
  change (String.prefix (String a s1) (String b s2))
    with (if Ascii.ascii_dec a b then String.prefix s1 s2 else false).
  destruct (Ascii.ascii_dec a b) as [Heq|Hne].
  - apply Ascii.eqb_eq in Heq. now rewrite Heq.
  - apply Ascii.eqb_neq in Hne. now rewrite Hne.
Qed.

Lemma eqb_cons :
  forall (a b : ascii) (s1 s2 : string),
    String.eqb (String a s1) (String b s2)
    = (Ascii.eqb a b && String.eqb s1 s2).
Proof.
  intros a b s1 s2.
  simpl.
  now destruct (Ascii.eqb a b).
Qed.

(** A relative path begins with a dot. *)
Lemma isRelativePath_dot :
  forall p : string,
    isRelativePath p = true -> exists rest : string, p = String "." rest.
Proof.
  intros [|c rest] Hrel; [discriminate Hrel|].
  destruct (Ascii.eqb_spec "." c) as [<-|Hc]; [now exists rest|].
  exfalso.
  apply Ascii.eqb_neq in Hc.
  unfold isRelativePath, Str.HasPrefix in Hrel.
  rewrite !prefix_cons, !eqb_cons in Hrel.
  rewrite Hc in Hrel.
  rewrite Ascii.eqb_sym in Hc.
  rewrite Hc in Hrel.
  discriminate Hrel.
Qed.

(** Every form of an allow-listed name is builtin: the name, the name under
    the [node:] prefix, and the submodules of both. *)
Lemma IsNodeBuiltin_forms :
  forall (allowList : list string) (b sub : string),
    In b allowList ->
    IsNodeBuiltin allowList b = true /\
    IsNodeBuiltin allowList ("node:" ++ b) = true /\
    IsNodeBuiltin allowList (b ++ "/" ++ sub) = true /\
    IsNodeBuiltin allowList ("node:" ++ b ++ "/" ++ sub) = true.
Proof.
  intros allowList b sub Hin.
  assert (Hexact : onAllowList allowList b = true).
  { unfold onAllowList. apply existsb_exists. exists b.
    split; [exact Hin|]. now rewrite String.eqb_refl. }
  assert (Hsub : onAllowList allowList (b ++ "/" ++ sub) = true).
  { unfold onAllowList. apply existsb_exists. exists b.
    split; [exact Hin|].
    apply orb_true_iff. right.
    unfold Str.HasPrefix.
    replace (b ++ "/" ++ sub) with ((b ++ "/") ++ sub).
    - apply prefix_append.
    - apply append_assoc. }
  assert (Htrim : forall s : string, Str.TrimPrefix ("node:" ++ s) "node:" = s).
  { intros s. unfold Str.TrimPrefix.
    change ("node:" ++ s)
      with (String "n" (String "o" (String "d" (String "e" (String ":" s))))).
    simpl.
    replace (String.prefix "" s) with true by now destruct s.
    rewrite Nat.sub_0_r. apply substring_all. }
  assert (Hpre : forall s : string, Str.HasPrefix ("node:" ++ s) "node:" = true).
  { intros s. apply prefix_append. }
  unfold IsNodeBuiltin.
  repeat split.
  - now rewrite Hexact.
  - rewrite Hpre, Htrim, Hexact. apply orb_true_r.
  - now rewrite Hsub.
  - rewrite Hpre, Htrim, Hsub. apply orb_true_r.
Qed.

(** The condition of the asset branch is membership in [assetExtensions]. *)
Lemma asset_branch :
  forall ext : string,
    (String.eqb ext ".css" || String.eqb ext ".scss" ||
     String.eqb ext ".less" || String.eqb ext ".json" ||
     String.eqb ext ".png" || String.eqb ext ".jpg" ||
     String.eqb ext ".svg" || String.eqb ext ".gif")
    = isAssetExtension ext.
Proof.
  intros ext.
  unfold isAssetExtension, assetExtensions.
  cbn [existsb].
  now rewrite orb_false_r, !orb_assoc.
Qed.

(** A path under the [node:] prefix is not relative. *)
Lemma node_prefix_not_relative :
  forall p : string,
    Str.HasPrefix p "node:" = true -> isRelativePath p = false.
Proof.
  intros p Hnode.
  destruct (isRelativePath p) eqn:Hrel; [|reflexivity].
  destruct (isRelativePath_dot p Hrel) as [rest ->].
  discriminate Hnode.
Qed.

(** An allow-list of module names matches no name that begins with a dot. *)
Lemma onAllowList_dot :
  forall (allowList : list string) (rest : string),
    noDotNames allowList = true ->
    onAllowList allowList (String "." rest) = false.
Proof.
  intros allowList rest.
  unfold onAllowList, noDotNames.
  induction allowList as [|b l IH]; intros Hnames; [reflexivity|].
  simpl in Hnames. apply andb_true_iff in Hnames as [Hb Hl].
  cbn [existsb]. rewrite (IH Hl), orb_false_r.
  apply negb_true_iff in Hb.
  unfold Str.HasPrefix in *.
  destruct b as [|c b']; [reflexivity|].
  change (String c b' ++ "/") with (String c (b' ++ "/")).
  rewrite prefix_cons in Hb.
  rewrite prefix_cons, eqb_cons.
  replace (String.prefix "" b') with true in Hb by now destruct b'.
  rewrite andb_true_r in Hb.
  rewrite Hb.
  rewrite Ascii.eqb_sym in Hb.
  rewrite Hb.
  reflexivity.
Qed.

Section Classification.

Variable allowList : list string.
Hypothesis names_ok : noDotNames allowList = true.

(** With module names on the allow-list, no relative path is builtin. *)
Lemma relative_not_builtin :
  forall p : string,
    isRelativePath p = true -> IsNodeBuiltin allowList p = false.
Proof.
  intros p Hrel.
  destruct (isRelativePath_dot p Hrel) as [rest ->].
  unfold IsNodeBuiltin.
  replace (Str.HasPrefix (String "." rest) "node:") with false
    by reflexivity.
  rewrite andb_false_l, orb_false_r.
  now apply onAllowList_dot.
Qed.

(** Both revisions test for builtins first and for relative paths next. *)
Lemma classifyImportType_builtin_iff :
  forall p : string,
    (IsNodeBuiltin allowList p = true <->
     WithResolver.classifyImportType allowList p = BuiltinImport) /\
    (IsNodeBuiltin allowList p = true <->
     WithAssetKind.classifyImportType allowList p = BuiltinImport).
Proof.
  intros p.
  unfold WithResolver.classifyImportType, WithAssetKind.classifyImportType.
  rewrite asset_branch.
  destruct (IsNodeBuiltin allowList p); [now repeat split|].
  destruct (isRelativePath p);
    [|destruct (isAssetExtension (Filepath.Ext p))];
    repeat split; intros H; discriminate H.
Qed.

Lemma classifyImportType_relative :
  forall p : string,
    isRelativePath p = true ->
    WithResolver.classifyImportType allowList p = RelativeImport /\
    WithAssetKind.classifyImportType allowList p = RelativeImport.
Proof.
  intros p Hrel.
  unfold WithResolver.classifyImportType, WithAssetKind.classifyImportType.
  rewrite (relative_not_builtin p Hrel), Hrel.
  now split.
Qed.

Lemma classifyImportType_other :
  forall p : string,
    isRelativePath p = false ->
    IsNodeBuiltin allowList p = false ->
    WithResolver.classifyImportType allowList p = BareImport /\
    WithAssetKind.classifyImportType allowList p
    = if isAssetExtension (Filepath.Ext p) then AssetImport else BareImport.
Proof.
  intros p Hrel Hbuiltin.
  unfold WithResolver.classifyImportType, WithAssetKind.classifyImportType.
  rewrite asset_branch, Hbuiltin, Hrel.
  now split.
Qed.

(** C1, as the code has it.  In the revision with the resolver every path
    gets exactly one of the kinds relative, builtin, bare (external).  In
    both revisions: a path that begins with ./ or ../ or is . or .. is
    relative; a path is builtin exactly when [IsNodeBuiltin] accepts it,
    which compares bytes, so that every allow-listed name, its [node:] form
    and the submodules of both are builtin; a [node:] path that is not
    accepted is bare in the revision with the resolver.  Every other path is
    bare in the revision with the resolver; in the revision with the asset
    branch it is bare unless its extension is an asset extension, and then it
    is of the fourth kind, asset. *)
Theorem classifyImportType_kinds :
  forall p : string,
    let k := WithResolver.classifyImportType allowList p in
    let k' := WithAssetKind.classifyImportType allowList p in
    (k = RelativeImport \/ k = BuiltinImport \/ k = BareImport) /\
    (isRelativePath p = true -> k = RelativeImport /\ k' = RelativeImport) /\
    (IsNodeBuiltin allowList p = true <-> k = BuiltinImport) /\
    (IsNodeBuiltin allowList p = true <-> k' = BuiltinImport) /\
    (In p allowList ->
     forall sub : string,
       Forall (fun q =>
                 WithResolver.classifyImportType allowList q = BuiltinImport
                 /\ WithAssetKind.classifyImportType allowList q
                    = BuiltinImport)
              [p; "node:" ++ p; p ++ "/" ++ sub; "node:" ++ p ++ "/" ++ sub]) /\
    (Str.HasPrefix p "node:" = true ->
     IsNodeBuiltin allowList p = false -> k = BareImport) /\
    (isRelativePath p = false ->
     IsNodeBuiltin allowList p = false ->
     k = BareImport /\
     k' = if isAssetExtension (Filepath.Ext p)
          then AssetImport else BareImport).
Proof.
  intros p k k'.
  split.
  { subst k. unfold WithResolver.classifyImportType.
    destruct (IsNodeBuiltin allowList p); [now right; left|].
    destruct (isRelativePath p); [now left | now right; right]. }
  split; [apply classifyImportType_relative|].
  split; [apply classifyImportType_builtin_iff|].
  split; [apply classifyImportType_builtin_iff|].
  split.
  { intros Hin sub.
    destruct (IsNodeBuiltin_forms allowList p sub Hin) as (H1 & H2 & H3 & H4).
    repeat constructor;
      try (now apply classifyImportType_builtin_iff). }
  split.
  { intros Hnode Hbuiltin.
    apply classifyImportType_other;
      [now apply node_prefix_not_relative | exact Hbuiltin]. }
  apply classifyImportType_other.
Qed.

(** C4, as the code has it, for every path whose extension is an asset
    extension.  The revision with the resolver never gives it a fourth kind.
    If the path is relative, it is relative in both revisions.  If it is
    neither relative nor builtin, it is bare (external) in the revision with
    the resolver and of the fourth kind, asset, in the revision with the
    asset branch. *)
Theorem classifyImportType_asset_suffix :
  forall p : string,
    isAssetExtension (Filepath.Ext p) = true ->
    WithResolver.classifyImportType allowList p <> AssetImport /\
    (isRelativePath p = true ->
     WithResolver.classifyImportType allowList p = RelativeImport /\
     WithAssetKind.classifyImportType allowList p = RelativeImport) /\
    (isRelativePath p = false ->
     IsNodeBuiltin allowList p = false ->
     WithResolver.classifyImportType allowList p = BareImport /\
     WithAssetKind.classifyImportType allowList p = AssetImport).
Proof.
  intros p Hext.
  split.
  { unfold WithResolver.classifyImportType.
    destruct (IsNodeBuiltin allowList p); [discriminate|].
    destruct (isRelativePath p); discriminate. }
  split; [apply classifyImportType_relative|].
  intros Hrel Hbuiltin.
  destruct (classifyImportType_other p Hrel Hbuiltin) as [Hk Hk'].
  rewrite Hext in Hk'.
  now split.
Qed.

End Classification.

Lemma classifyImportType_kinds_sample :
  noDotNames sampleAllowList = true /\
  (In "fs" sampleAllowList ->
   forall sub : string,
     Forall (fun q =>
               WithResolver.classifyImportType sampleAllowList q
               = BuiltinImport /\
               WithAssetKind.classifyImportType sampleAllowList q
               = BuiltinImport)
            ["fs"; "node:" ++ "fs"; "fs" ++ "/" ++ sub;
             "node:" ++ "fs" ++ "/" ++ sub]).
Proof.
  split; [reflexivity|].
  apply (classifyImportType_kinds sampleAllowList eq_refl "fs").
Defined.

(** C1 fails as stated: in the revision with the asset branch, logo.png is
    neither relative nor builtin nor bare. *)
Lemma classifyImportType_logo_png :
  ~ (WithAssetKind.classifyImportType sampleAllowList "logo.png"
     = RelativeImport \/
     WithAssetKind.classifyImportType sampleAllowList "logo.png"
     = BuiltinImport \/
     WithAssetKind.classifyImportType sampleAllowList "logo.png"
     = BareImport).
Proof.
  vm_compute.
  intros [H | [H | H]]; discriminate H.
Qed.

Lemma classifyImportType_asset_suffix_sample :
  noDotNames sampleAllowList = true /\
  isAssetExtension (Filepath.Ext "./styles.css") = true /\
  (isRelativePath "./styles.css" = true ->
   WithResolver.classifyImportType sampleAllowList "./styles.css"
   = RelativeImport /\
   WithAssetKind.classifyImportType sampleAllowList "./styles.css"
   = RelativeImport).
Proof.
  split; [reflexivity|].
  split; [reflexivity|].
  apply (classifyImportType_asset_suffix sampleAllowList eq_refl
           "./styles.css" eq_refl).
Defined.

(** C4 fails as stated: in the revision with the asset branch, the bare
    path styles.css is of the fourth kind, not external. *)
Lemma classifyImportType_styles_css :
  WithAssetKind.classifyImportType sampleAllowList "styles.css"
  = AssetImport /\
  WithAssetKind.classifyImportType sampleAllowList "styles.css"
  <> BareImport.
Proof.
  split; [reflexivity|].
  vm_compute.
  discriminate.
Qed.


(** ** The directory pass *)

Lemma readsOf_cons :
  forall (dir : string) (info : DirEntry) (files : list DirEntry),
    readsOf dir (info :: files)
    = if isSourceEntry info
      then SysReadFile (Filepath.Join [dir; entryName info])
           :: readsOf dir files
      else readsOf dir files.
Proof.
  intros dir info files.
  unfold readsOf.
  cbn [List.filter].
  now destruct (isSourceEntry info).
Qed.

Section DirectoryPass.

Variable ParseCtx : Grammar -> string -> error + Node.
Variable classifyImportType : string -> ImportType.

(** [parseFile] reads one file whatever happens next, and its outcome does
    not depend on the log. *)
Lemma parseFile_log :
  forall (dir filename : string) (w : World) (log : list Syscall),
    parseFile ParseCtx classifyImportType dir filename w log
    = (fst (run (parseFile ParseCtx classifyImportType dir filename) w),
       (log ++ [SysReadFile (Filepath.Join [dir; filename])])%list).
Proof.
  intros dir filename w log.
  unfold parseFile, run, io_bind, os_ReadFile.
  destruct (ReadFile w (Filepath.Join [dir; filename])) as [errno|content];
    [reflexivity|].
  destruct (ParseCtx _ content) as [err|rootNode]; [reflexivity|].
  now destruct (extractImportsAndExports _ rootNode content _).
Qed.

(** One iteration of the loop of [ImportDir]. *)
Lemma importEntries_cons :
  forall (dir : string) (info : DirEntry) (rest : list DirEntry)
         (ret : gmap string File) (w : World) (log : list Syscall),
    importEntries ParseCtx classifyImportType dir (info :: rest) ret w log
    = if isSourceEntry info then
        let log' :=
          (log ++ [SysReadFile (Filepath.Join [dir; entryName info])])%list in
        match fst (run (parseFile ParseCtx classifyImportType
                          dir (entryName info)) w)
        with
        | None => (None, log')
        | Some (inl err) =>
            (Some (inl (Errorf_parsing (entryName info) err)), log')
        | Some (inr f) =>
            importEntries ParseCtx classifyImportType
              dir rest (<[entryName info := f]> ret) w log'
        end
      else
        importEntries ParseCtx classifyImportType dir rest ret w log.
Proof.
  intros dir info rest ret w log.
  cbn [importEntries].
  unfold isSourceEntry.
  destruct (entryIsRegular info); [|reflexivity].
  destruct (isJavaScriptFile (entryName info)); [|reflexivity].
  cbn [negb andb].
  unfold io_bind at 1.
  rewrite parseFile_log.
  now destruct (fst _) as [[err|f]|].
Qed.



(** When [parseFile] returns a file for every source entry, the loop returns
    the map built so far extended, for every source entry, by the parsed file
    under its name. *)
Lemma importEntries_all_parse :
  forall (dir : string) (w : World) (files : list DirEntry)
         (ret : gmap string File) (log : list Syscall),
    (forall e : DirEntry,
        In e files -> isSourceEntry e = true ->
        exists f : File,
          fst (run (parseFile ParseCtx classifyImportType
                      dir (entryName e)) w) = Some (inr f)) ->
    exists m : gmap string File,
      importEntries ParseCtx classifyImportType dir files ret w log
      = (Some (inr m), (log ++ readsOf dir files)%list) /\
      forall name : string,
        m !! name
        = if existsb (fun e => isSourceEntry e &&
                               String.eqb (entryName e) name) files
          then match fst (run (parseFile ParseCtx classifyImportType
                                 dir name) w) with
               | Some (inr f) => Some f
               | _ => None
               end
          else ret !! name.
Proof.
  intros dir w files.
  induction files as [|e files IH]; intros ret log Hall.
  - exists ret. split; [|reflexivity].
    cbn. unfold io_ret. now rewrite app_nil_r.
  - assert (Hrest : forall e' : DirEntry,
               In e' files -> isSourceEntry e' = true ->
               exists f : File,
                 fst (run (parseFile ParseCtx classifyImportType
                             dir (entryName e')) w) = Some (inr f)).
    { intros e' Hin. apply Hall. now right. }
    rewrite importEntries_cons, readsOf_cons.
    cbn [existsb].
    destruct (isSourceEntry e) eqn:He.
    + destruct (Hall e (or_introl eq_refl) He) as [f Hf].
      rewrite Hf. cbv zeta.
      destruct (IH (<[entryName e := f]> ret)
                   (log ++ [SysReadFile (Filepath.Join [dir; entryName e])])%list
                   Hrest)
        as (m & Hrun & Hlookup).
      exists m. split.
      * rewrite Hrun. now rewrite <- app_assoc.
      * intros name. rewrite Hlookup.
        destruct (existsb _ files); [now rewrite orb_true_r|].
        rewrite orb_false_r. cbn [andb].
        destruct (String.eqb_spec (entryName e) name) as [<-|Hne].
        -- now rewrite lookup_insert_eq, Hf.
        -- now rewrite lookup_insert_ne.
    + destruct (IH ret log Hrest) as (m & Hrun & Hlookup).
      exists m. split; [exact Hrun|].
      intros name. now rewrite Hlookup.
Qed.

(** When [parseFile] returns a file for every source entry of the directory,
    [ImportDir] returns the map from the names of the source entries to their
    parsed files. *)
Lemma ImportDir_all_parse :
  forall (dir : string) (w : World) (files : list DirEntry),
    ReadDir w dir = inr files ->
    (forall e : DirEntry,
        In e files -> isSourceEntry e = true ->
        exists f : File,
          fst (run (parseFile ParseCtx classifyImportType
                      dir (entryName e)) w) = Some (inr f)) ->
    exists m : gmap string File,
      run (ImportDir ParseCtx classifyImportType dir) w
      = (Some (inr m), SysReadDir dir :: readsOf dir files) /\
      forall name : string,
        m !! name
        = if existsb (fun e => isSourceEntry e &&
                               String.eqb (entryName e) name) files
          then match fst (run (parseFile ParseCtx classifyImportType
                                 dir name) w) with
               | Some (inr f) => Some f
               | _ => None
               end
          else None.
Proof.
  intros dir w files Hdir Hall.
  unfold ImportDir, run, io_bind, os_ReadDir.
  rewrite Hdir.
  destruct (importEntries_all_parse dir w files ∅ ([] ++ [SysReadDir dir])%list
              Hall)
    as (m & Hrun & Hlookup).
  exists m. split; [exact Hrun|].
  intros name. rewrite Hlookup.
  now rewrite lookup_empty.
Qed.

(** A source entry whose traversal panics ends the pass with that panic: no
    map and no error is returned, and no later entry is read. *)
Lemma importEntries_panic :
  forall (dir : string) (w : World) (before after : list DirEntry)
         (info : DirEntry) (ret : gmap string File) (log : list Syscall),
    (forall e : DirEntry,
        In e before -> isSourceEntry e = true ->
        exists f : File,
          fst (run (parseFile ParseCtx classifyImportType
                      dir (entryName e)) w) = Some (inr f)) ->
    isSourceEntry info = true ->
    fst (run (parseFile ParseCtx classifyImportType
                dir (entryName info)) w) = None ->
    importEntries ParseCtx classifyImportType
      dir (before ++ info :: after) ret w log
    = (None, (log ++ readsOf dir (before ++ [info]))%list).
Proof.
  intros dir w before after info.
  induction before as [|e before IH]; intros ret log Hbefore Hsel Hpanic.
  - cbn [app].
    rewrite importEntries_cons, readsOf_cons, Hsel, Hpanic.
    reflexivity.
  - cbn [app].
    rewrite importEntries_cons, readsOf_cons.
    assert (Hrest : forall e' : DirEntry,
               In e' before -> isSourceEntry e' = true ->
               exists f : File,
                 fst (run (parseFile ParseCtx classifyImportType
                             dir (entryName e')) w) = Some (inr f)).
    { intros e' Hin. apply Hbefore. now right. }
    destruct (isSourceEntry e) eqn:He.
    + destruct (Hbefore e (or_introl eq_refl) He) as [f Hf].
      rewrite Hf. cbv zeta.
      rewrite (IH _ _ Hrest Hsel Hpanic).
      now rewrite <- app_assoc.
    + apply (IH _ _ Hrest Hsel Hpanic).
Qed.

End DirectoryPass.



(** ** The tests of the package, replayed *)

Example TestIsNodeBuiltin :
  map (IsNodeBuiltin sampleAllowList)
      ["fs"; "path"; "crypto"; "node:fs"; "node:path"; "node:crypto";
       "fs/promises"; "node:fs/promises"; "path/posix"; "util/types";
       "lodash"; "react"; "express"; "@types/node"; "@babel/core";
       ""; "node:invalid"; "f"; "FS"]
  = [true; true; true; true; true; true;
     true; true; true; true;
     false; false; false; false; false;
     false; false; false; false].
Proof. reflexivity. Qed.

Example TestClassifyImportType :
  let paths := ["./utils"; "../components"; "."; ".."; "fs"; "path";
                "./styles.css"; "./config.json"; "lodash"; "@types/node"] in
  let kinds := [RelativeImport; RelativeImport; RelativeImport;
                RelativeImport; BuiltinImport; BuiltinImport;
                RelativeImport; RelativeImport; BareImport; BareImport] in
  map (WithResolver.classifyImportType sampleAllowList) paths = kinds /\
  map (WithAssetKind.classifyImportType sampleAllowList) paths = kinds.
Proof. split; reflexivity. Qed.

Example TestResolveRelativeImport :
  fst (run (WithResolver.ResolveRelativeImport "/project/src" "./utils")
           emptyTree)
  = inl (Errorf_could_not_resolve_import "./utils" "/project/src") /\
  fst (run (WithResolver.ResolveRelativeImport "/project/src/components"
              "../utils") emptyTree)
  = inl (Errorf_could_not_resolve_import "../utils"
           "/project/src/components") /\
  fst (run (WithResolver.ResolveRelativeImport "/project/src" "") emptyTree)
  = inl Errorf_empty_import_path /\
  fst (run (WithResolver.ResolveRelativeImport "/project/src" "lodash")
           emptyTree)
  = inl (Errorf_not_a_relative_import "lodash").
Proof. repeat split. Qed.

Example TestFile_KindType :
  map (fun t => KindType (mkFile "" "" [] t false)) [Library; Test; Binary]
  = [kinds_Lib; kinds_Test; kinds_Bin].
Proof. reflexivity. Qed.

(** The order of the lookups of the resolver in the sample tree: the exact
    path, then the extensions, then the index files. *)
Example ResolveRelativeImport_order :
  run (WithResolver.ResolveRelativeImport "/p" "./lib") sampleTree
  = (inr "/p/lib", [SysStat "/p/lib"]) /\
  run (WithResolver.ResolveRelativeImport "/p" "./a") sampleTree
  = (inr "/p/a.js", [SysStat "/p/a"; SysStat "/p/a.js"]) /\
  run (WithResolver.ResolveRelativeImport "/p/lib" "../lib/index") sampleTree
  = (inr "/p/lib/index.ts",
     [SysStat "/p/lib/index"; SysStat "/p/lib/index.js";
      SysStat "/p/lib/index.ts"]) /\
  snd (run (WithResolver.ResolveRelativeImport "/p" "./zz") sampleTree)
  = map SysStat
        ["/p/zz"; "/p/zz.js"; "/p/zz.ts"; "/p/zz.jsx"; "/p/zz.tsx";
         "/p/zz.mjs"; "/p/zz.cjs"; "/p/zz/index.js"; "/p/zz/index.ts";
         "/p/zz/index.jsx"; "/p/zz/index.tsx"; "/p/zz/index.mjs";
         "/p/zz/index.cjs"].
Proof. repeat split. Qed.

(** [filepath] on the paths of the samples. *)
Example filepath_samples :
  map Filepath.Clean
      ["/project/src/./utils"; "a/../../b/"; "/../a//b/./c/.."; "///"; "a/..";
       ""]
  = ["/project/src/utils"; "../b"; "/a/b"; "/"; "."; "."] /\
  Filepath.Join ["/project/src/components"; "../utils"]
  = "/project/src/utils" /\
  Filepath.Join [""; "./x"] = "x" /\
  map Filepath.Base ["/a/b/"; "///"; "abc"; ""] = ["b"; "/"; "abc"; "."] /\
  map Filepath.Dir ["/a/b/c.js"; "c.js"; "/c.js"] = ["/a/b"; "."; "/"] /\
  map Filepath.Ext ["a.b/c"; "a/b.test.tsx"; "a/.css"; "x."]
  = [""; ".tsx"; ".css"; "."].
Proof. repeat split. Qed.

(** The imports of the sample source, and the traversal of the sample with a
    default export. *)
Example extractImportsAndExports_samples :
  option_map Imports
    (extractImportsAndExports
       (WithResolver.classifyImportType sampleAllowList)
       sampleSyntaxTree sampleSource sampleFile)
  = Some [mkImport "./lib" "d" RelativeImport true;
          mkImport "./lib" "a" RelativeImport false;
          mkImport "./lib" "c" RelativeImport false;
          mkImport "fs" "ns" BuiltinImport false;
          mkImport "side.css" "" BareImport false] /\
  option_map Imports
    (extractImportsAndExports
       (WithAssetKind.classifyImportType sampleAllowList)
       sampleSyntaxTree sampleSource sampleFile)
  = Some [mkImport "./lib" "d" RelativeImport true;
          mkImport "./lib" "a" RelativeImport false;
          mkImport "./lib" "c" RelativeImport false;
          mkImport "fs" "ns" BuiltinImport false;
          mkImport "side.css" "" AssetImport false] /\
  extractImportsAndExports (WithResolver.classifyImportType sampleAllowList)
    sampleExportTree sampleExportSource sampleFile = None.
Proof. repeat split. Qed.

(** * Further properties *)

(** ** More on relative imports *)

(** The candidates of the two loops of [ResolveRelativeImport] for a joined
    path. *)
Lemma find_ok_some :
  forall (w : World) (l : list string) (q : string),
    List.find (fun q => bool_decide (Stat w q = None)) l = Some q ->
    In q l /\ Stat w q = None.
Proof.
  intros w l q H.
  apply List.find_some in H as [Hin Hok].
  split; [exact Hin|].
  now apply bool_decide_eq_true_1 in Hok.
Qed.

Lemma find_ok_none :
  forall (w : World) (l : list string),
    List.find (fun q => bool_decide (Stat w q = None)) l = None <->
    forall q : string, In q l -> Stat w q <> None.
Proof.
  intros w l. split.
  - intros H q Hin Hq.
    pose proof (List.find_none _ _ H q Hin) as Hno.
    cbv beta in Hno.
    rewrite bool_decide_eq_true_2 in Hno by exact Hq.
    discriminate Hno.
  - intros H.
    destruct (List.find _ l) as [q|] eqn:Hfind; [|reflexivity].
    apply find_ok_some in Hfind as [Hin Hq].
    now contradiction (H q Hin).
Qed.

(** X1: a path returned by [ResolveRelativeImport] for a relative import is
    one of the thirteen candidates; it has a [Stat] with nil error, unless it
    is the joined path itself and [Stat] failed on it with an error other
    than "missing". *)
Theorem ResolveRelativeImport_sound :
  forall (currentDir importPath : string) (w : World) (resolved : string),
    isRelativePath importPath = true ->
    fst (run (WithResolver.ResolveRelativeImport currentDir importPath) w)
    = inr resolved ->
    let joined := Filepath.Join [currentDir; importPath] in
    In resolved (resolveCandidates joined) /\
    (Stat w resolved = None \/
     resolved = joined /\
     exists e : Errno, Stat w joined = Some e /\ e <> ENOENT).
Proof.
  intros currentDir importPath w resolved Hrel Hres joined.
  rewrite (ResolveRelativeImport_relative currentDir importPath w Hrel)
    in Hres.
  fold joined in Hres.
  unfold resolveCandidates.
  destruct (Stat w joined) as [e|] eqn:Hstat.
  - destruct e; cbn [os_IsNotExist] in Hres;
      try (injection Hres as <-; split; [now left|];
           right; split; [reflexivity|]; eexists; split;
           [reflexivity | discriminate]).
    match type of Hres with
    | context [List.find ?f ?l] => destruct (List.find f l) as [q|] eqn:H1
    end.
    + injection Hres as <-.
      apply find_ok_some in H1 as [Hin Hq].
      split; [|now left].
      right. apply in_or_app. now left.
    + match type of Hres with
      | context [List.find ?f ?l] => destruct (List.find f l) as [q|] eqn:H2
      end; [|discriminate Hres].
      injection Hres as <-.
      apply find_ok_some in H2 as [Hin Hq].
      split; [|now left].
      right. apply in_or_app. now right.
  - cbn [os_IsNotExist] in Hres. injection Hres as <-.
    split; [now left | now left].
Qed.

Lemma ResolveRelativeImport_sound_sample :
  isRelativePath "./a" = true /\
  fst (run (WithResolver.ResolveRelativeImport "/p" "./a") sampleTree)
  = inr "/p/a.js" /\
  (Stat sampleTree "/p/a.js" = None \/
   "/p/a.js" = Filepath.Join ["/p"; "./a"] /\
   exists e : Errno,
     Stat sampleTree (Filepath.Join ["/p"; "./a"]) = Some e /\ e <> ENOENT).
Proof.
  split; [reflexivity|].
  split; [reflexivity|].
  apply (ResolveRelativeImport_sound "/p" "./a" sampleTree "/p/a.js");
    reflexivity.
Defined.

(** X2: for a relative import, [ResolveRelativeImport] fails exactly when
    [Stat] reports the joined path missing and has a nil error for none of
    the twelve extension and index candidates; the error is then the
    resolution error with the import path and the directory. *)
Theorem ResolveRelativeImport_unresolved_iff :
  forall (currentDir importPath : string) (w : World),
    isRelativePath importPath = true ->
    let joined := Filepath.Join [currentDir; importPath] in
    ((exists err : error,
         fst (run (WithResolver.ResolveRelativeImport currentDir importPath)
                  w) = inl err) <->
     Stat w joined = Some ENOENT /\
     forall q : string,
       In q (tl (resolveCandidates joined)) -> Stat w q <> None) /\
    forall err : error,
      fst (run (WithResolver.ResolveRelativeImport currentDir importPath) w)
      = inl err ->
      err = Errorf_could_not_resolve_import importPath currentDir.
Proof.
  intros currentDir importPath w Hrel joined.
  rewrite (ResolveRelativeImport_relative currentDir importPath w Hrel).
  fold joined.
  unfold resolveCandidates. cbn [tl].
  set (exts := map (fun ext => joined ++ ext) WithResolver.jsExtensions).
  set (idxs := map (fun ext => Filepath.Join [joined; "index"] ++ ext)
                   WithResolver.jsExtensions).
  assert (Hsplit :
    (forall q, In q (exts ++ idxs)%list -> Stat w q <> None) <->
    (forall q, In q exts -> Stat w q <> None) /\
    (forall q, In q idxs -> Stat w q <> None)).
  { split.
    - intros H. split; intros q Hin; apply H, in_or_app; auto.
    - intros [H1 H2] q Hin. apply in_app_or in Hin as [Hin|Hin]; auto. }
  rewrite Hsplit, <- !find_ok_none.
  destruct (Stat w joined) as [e|] eqn:Hstat.
  - destruct e; cbn [os_IsNotExist].
    + destruct (List.find _ exts) as [q|].
      * split; [|intros err H; discriminate H].
        split; [intros [err H]; discriminate H|].
        intros (_ & H & _). discriminate H.
      * destruct (List.find _ idxs) as [q|].
        -- split; [|intros err H; discriminate H].
           split; [intros [err H]; discriminate H|].
           intros (_ & _ & H). discriminate H.
        -- split; [|intros err H; now injection H as <-].
           split; [now intros _ | intros _; now eexists].
    + split; [|intros err H; discriminate H].
      split; [intros [err H]; discriminate H | intros [H _]; discriminate H].
    + split; [|intros err H; discriminate H].
      split; [intros [err H]; discriminate H | intros [H _]; discriminate H].
    + split; [|intros err H; discriminate H].
      split; [intros [err H]; discriminate H | intros [H _]; discriminate H].
  - cbn [os_IsNotExist].
    split; [|intros err H; discriminate H].
    split; [intros [err H]; discriminate H | intros [H _]; discriminate H].
Qed.

Lemma ResolveRelativeImport_unresolved_sample :
  isRelativePath "./zz" = true /\
  forall err : error,
    fst (run (WithResolver.ResolveRelativeImport "/p" "./zz") sampleTree)
    = inl err ->
    err = Errorf_could_not_resolve_import "./zz" "/p".
Proof.
  split; [reflexivity|].
  apply (ResolveRelativeImport_unresolved_iff "/p" "./zz" sampleTree).
  reflexivity.
Defined.

Lemma map_SysStat_inj :
  forall l1 l2 : list string, map SysStat l1 = map SysStat l2 -> l1 = l2.
Proof.
  induction l1 as [|x l1 IH]; intros [|y l2] H; try discriminate H;
    [reflexivity|].
  cbn [map] in H. injection H as -> H.
  f_equal. now apply IH.
Qed.

(** The candidate loop when it hits and when it misses, with its calls. *)
Lemma firstStatOk_hit :
  forall (base : string) (before after : list string) (ext : string)
         (w : World) (log : list Syscall),
    (forall e : string, In e before -> Stat w (base ++ e) <> None) ->
    Stat w (base ++ ext) = None ->
    WithResolver.firstStatOk base (before ++ ext :: after) w log
    = (Some (base ++ ext),
       (log ++ map (fun e => SysStat (base ++ e)) (before ++ [ext]))%list).
Proof.
  intros base before after ext w.
  induction before as [|e before IH]; intros log Hbefore Hext.
  - cbn. unfold io_bind, os_Stat. now rewrite Hext.
  - cbn [app WithResolver.firstStatOk map].
    unfold io_bind at 1. unfold os_Stat at 1.
    destruct (Stat w (base ++ e)) as [err|] eqn:He.
    + rewrite IH; [now rewrite <- app_assoc | | exact Hext].
      intros e' Hin. apply Hbefore. now right.
    + now contradiction (Hbefore e (or_introl eq_refl)).
Qed.

Lemma firstStatOk_miss :
  forall (base : string) (exts : list string) (w : World)
         (log : list Syscall),
    (forall e : string, In e exts -> Stat w (base ++ e) <> None) ->
    WithResolver.firstStatOk base exts w log
    = (None, (log ++ map (fun e => SysStat (base ++ e)) exts)%list).
Proof.
  intros base exts w.
  induction exts as [|e exts IH]; intros log Hexts.
  - cbn. unfold io_ret. now rewrite app_nil_r.
  - cbn [WithResolver.firstStatOk map].
    unfold io_bind at 1. unfold os_Stat at 1.
    destruct (Stat w (base ++ e)) as [err|] eqn:He.
    + rewrite IH; [now rewrite <- app_assoc|].
      intros e' Hin. apply Hexts. now right.
    + now contradiction (Hexts e (or_introl eq_refl)).
Qed.

(** The first [Stat] of [ResolveRelativeImport] and what follows it. *)
Lemma ResolveRelativeImport_missing :
  forall (currentDir importPath : string) (w : World),
    isRelativePath importPath = true ->
    let joined := Filepath.Join [currentDir; importPath] in
    Stat w joined = Some ENOENT ->
    run (WithResolver.ResolveRelativeImport currentDir importPath) w
    = let (found, log) :=
        WithResolver.firstStatOk joined WithResolver.jsExtensions w
          [SysStat joined] in
      match found with
      | Some p => (inr p, log)
      | None =>
          let (found', log') :=
            WithResolver.firstStatOk (Filepath.Join [joined; "index"])
              WithResolver.jsExtensions w log in
          match found' with
          | Some p => (inr p, log')
          | None =>
              (inl (Errorf_could_not_resolve_import importPath currentDir),
               log')
          end
      end.
Proof.
  intros currentDir importPath w Hrel joined Hstat.
  assert (Hne : String.eqb importPath "" = false).
  { destruct importPath; [discriminate Hrel | reflexivity]. }
  unfold WithResolver.ResolveRelativeImport, run.
  rewrite Hne, Hrel.
  rewrite Clean_Join by now apply String.eqb_neq.
  fold joined.
  unfold io_bind at 1. unfold os_Stat at 1.
  rewrite Hstat. cbn [os_IsNotExist app].
  unfold io_bind at 1.
  destruct (WithResolver.firstStatOk joined _ w _) as [[p|] log];
    [reflexivity|].
  unfold io_bind at 1.
  destruct (WithResolver.firstStatOk _ _ w log) as [[p|] log'];
    reflexivity.
Qed.

(** X3: when the joined path is missing, the first extension of the list
    .js, .ts, .jsx, .tsx, .mjs, .cjs whose candidate has a [Stat] with nil
    error wins, whatever exists for later extensions or as index file: the
    later extensions and the index files are not even passed to [Stat]. *)
Theorem ResolveRelativeImport_extension_priority :
  forall (currentDir importPath : string) (w : World)
         (before after : list string) (ext : string),
    isRelativePath importPath = true ->
    let joined := Filepath.Join [currentDir; importPath] in
    Stat w joined = Some ENOENT ->
    WithResolver.jsExtensions = (before ++ ext :: after)%list ->
    (forall e : string, In e before -> Stat w (joined ++ e) <> None) ->
    Stat w (joined ++ ext) = None ->
    run (WithResolver.ResolveRelativeImport currentDir importPath) w
    = (inr (joined ++ ext),
       SysStat joined
       :: map (fun e => SysStat (joined ++ e)) (before ++ [ext])).
Proof.
  intros currentDir importPath w before after ext Hrel joined Hstat Hexts
         Hbefore Hext.
  rewrite (ResolveRelativeImport_missing currentDir importPath w Hrel Hstat).
  fold joined.
  rewrite Hexts.
  now rewrite (firstStatOk_hit joined before after ext w _ Hbefore Hext).
Qed.

Lemma ResolveRelativeImport_extension_priority_sample :
  run (WithResolver.ResolveRelativeImport "/p/lib" "./index") sampleTree
  = (inr "/p/lib/index.ts",
     [SysStat "/p/lib/index"; SysStat "/p/lib/index.js";
      SysStat "/p/lib/index.ts"]).
Proof.
  apply (ResolveRelativeImport_extension_priority "/p/lib" "./index"
           sampleTree [".js"] [".jsx"; ".tsx"; ".mjs"; ".cjs"] ".ts").
  - reflexivity.
  - reflexivity.
  - reflexivity.
  - intros e [<-|[]]. discriminate.
  - reflexivity.
Defined.

(** X4: index files are out of reach.  In a world where an index file
    below the joined path has a [Stat] with nil error only if the joined path
    is not reported missing, as in every file tree, a relative import never
    resolves to an index candidate: a resolved path is the joined path (a
    directory resolves to itself) or one of its extension candidates. *)
Theorem ResolveRelativeImport_index_unreachable :
  forall (currentDir importPath : string) (w : World) (resolved : string),
    isRelativePath importPath = true ->
    let joined := Filepath.Join [currentDir; importPath] in
    (forall ext : string,
        In ext WithResolver.jsExtensions ->
        Stat w (Filepath.Join [joined; "index"] ++ ext) = None ->
        Stat w joined <> Some ENOENT) ->
    fst (run (WithResolver.ResolveRelativeImport currentDir importPath) w)
    = inr resolved ->
    resolved = joined \/
    In resolved (map (fun ext => joined ++ ext) WithResolver.jsExtensions).
Proof.
  intros currentDir importPath w resolved Hrel joined Htree Hres.
  rewrite (ResolveRelativeImport_relative currentDir importPath w Hrel)
    in Hres.
  fold joined in Hres.
  destruct (os_IsNotExist (Stat w joined)) eqn:Hmissing;
    [|injection Hres as <-; now left].
  assert (Hstat : Stat w joined = Some ENOENT).
  { destruct (Stat w joined) as [[]|]; try discriminate Hmissing.
    reflexivity. }
  match type of Hres with
  | context [List.find ?f ?l] => destruct (List.find f l) as [q|] eqn:H1
  end.
  - injection Hres as <-.
    apply find_ok_some in H1 as [Hin _]. now right.
  - match type of Hres with
    | context [List.find ?f ?l] => destruct (List.find f l) as [q|] eqn:H2
    end; [|discriminate Hres].
    apply find_ok_some in H2 as [Hin Hq].
    apply in_map_iff in Hin as (ext & <- & Hext).
    now contradiction (Htree ext Hext Hq).
Qed.

Lemma ResolveRelativeImport_index_unreachable_sample :
  fst (run (WithResolver.ResolveRelativeImport "/p" "./lib") sampleTree)
  = inr "/p/lib" /\
  ("/p/lib" = Filepath.Join ["/p"; "./lib"] \/
   In "/p/lib"
      (map (fun ext => Filepath.Join ["/p"; "./lib"] ++ ext)
           WithResolver.jsExtensions)).
Proof.
  split; [reflexivity|].
  apply (ResolveRelativeImport_index_unreachable "/p" "./lib" sampleTree
           "/p/lib").
  - reflexivity.
  - intros ext _ _. vm_compute. discriminate.
  - reflexivity.
Defined.

(** X5: [ResolveRelativeImport] calls nothing but [Stat], on the thirteen
    candidates in their order and without gaps: the calls it has made are
    always a prefix of the candidate list, and there are none at all for an
    empty or a non-relative path. *)
Theorem ResolveRelativeImport_stat_calls :
  forall (currentDir importPath : string) (w : World),
    let joined := Filepath.Join [currentDir; importPath] in
    exists called rest : list string,
      snd (run (WithResolver.ResolveRelativeImport currentDir importPath) w)
      = map SysStat called /\
      resolveCandidates joined = (called ++ rest)%list /\
      (isRelativePath importPath = false -> called = []).
Proof.
  intros currentDir importPath w joined.
  destruct (isRelativePath importPath) eqn:Hrel.
  2:{ exists [], (resolveCandidates joined).
      split; [|now split].
      unfold WithResolver.ResolveRelativeImport.
      rewrite Hrel. now destruct (String.eqb importPath ""). }
  assert (Hne : String.eqb importPath "" = false).
  { destruct importPath; [discriminate Hrel | reflexivity]. }
  destruct (os_IsNotExist (Stat w joined)) eqn:Hmissing.
  - assert (Hstat : Stat w joined = Some ENOENT).
    { destruct (Stat w joined) as [[]|]; try discriminate Hmissing.
      reflexivity. }
    rewrite (ResolveRelativeImport_missing currentDir importPath w Hrel
               Hstat).
    fold joined.
    unfold resolveCandidates.
    set (exts := map (fun ext => joined ++ ext) WithResolver.jsExtensions).
    set (idxs := map (fun ext => Filepath.Join [joined; "index"] ++ ext)
                     WithResolver.jsExtensions).
    destruct (firstStatOk_spec joined WithResolver.jsExtensions w
                [SysStat joined]) as (tried1 & Hrun1 & rest1 & Hsplit1).
    fold exts in Hrun1, Hsplit1.
    rewrite Hrun1.
    destruct (List.find _ exts) as [q|] eqn:Hfind1.
    + exists (joined :: tried1), (rest1 ++ idxs)%list.
      split; [reflexivity|].
      split; [|intros H; discriminate H].
      rewrite Hsplit1. cbn [app]. now rewrite <- app_assoc.
    + assert (Hall : tried1 = exts).
      { pose proof (proj1 (find_ok_none w exts) Hfind1) as Hmiss.
        assert (Hmiss' : forall e : string,
                   In e WithResolver.jsExtensions ->
                   Stat w (joined ++ e) <> None).
        { intros e He. apply Hmiss. unfold exts.
          apply in_map_iff. now exists e. }
        pose proof (firstStatOk_miss joined WithResolver.jsExtensions w
                      [SysStat joined] Hmiss') as Hrun1'.
        rewrite Hrun1 in Hrun1'.
        injection Hrun1' as Hlog.
        apply map_SysStat_inj.
        exact Hlog. }
      subst tried1.
      destruct (firstStatOk_spec (Filepath.Join [joined; "index"])
                  WithResolver.jsExtensions w
                  ([SysStat joined] ++ map SysStat exts)%list)
        as (tried2 & Hrun2 & rest2 & Hsplit2).
      fold idxs in Hrun2, Hsplit2.
      rewrite Hrun2.
      exists (joined :: exts ++ tried2)%list, rest2.
      split.
      * destruct (List.find _ idxs); cbn [snd app map];
          now rewrite map_app.
      * split; [|intros H; discriminate H].
        rewrite Hsplit2. cbn [app]. now rewrite <- app_assoc.
  - exists [joined], (tl (resolveCandidates joined)).
    split; [|split; [reflexivity | intros H; discriminate H]].
    unfold WithResolver.ResolveRelativeImport, run.
    rewrite Hne, Hrel.
    rewrite Clean_Join by now apply String.eqb_neq.
    fold joined.
    unfold io_bind, os_Stat.
    now rewrite Hmissing.
Qed.

(** X6: the joined path is already clean: [filepath.Clean] after
    [filepath.Join] in [ResolveRelativeImport] changes nothing, for every
    directory and every non-empty import path, so that the path passed to the
    first [Stat] is the joined path. *)
Theorem ResolveRelativeImport_clean_is_noop :
  forall currentDir importPath : string,
    importPath <> "" ->
    Filepath.Clean (Filepath.Join [currentDir; importPath])
    = Filepath.Join [currentDir; importPath].
Proof.
  intros currentDir importPath Hne.
  now apply Clean_Join.
Qed.

Lemma ResolveRelativeImport_clean_is_noop_sample :
  "../lib/./x//" <> "" /\
  Filepath.Clean (Filepath.Join ["/p/src"; "../lib/./x//"])
  = Filepath.Join ["/p/src"; "../lib/./x//"].
Proof.
  split; [discriminate|].
  apply (ResolveRelativeImport_clean_is_noop "/p/src" "../lib/./x//").
  discriminate.
Defined.

(** ** More on build targets *)

Lemma afterLastSlash_noSlash :
  forall path : string,
    match Filepath.afterLastSlash path with
    | Some e => noSlash e = true
    | None => noSlash path = true
    end.
Proof.
  induction path as [|c path IH]; [reflexivity|].
  cbn [Filepath.afterLastSlash noSlash].
  destruct (Filepath.afterLastSlash path) as [e|]; [exact IH|].
  destruct (Filepath.IsPathSeparator c); [exact IH|].
  exact IH.
Qed.

Lemma afterLastSlash_none :
  forall name : string,
    noSlash name = true -> Filepath.afterLastSlash name = None.
Proof.
  induction name as [|c name IH]; intros H; [reflexivity|].
  cbn [noSlash] in H. apply andb_true_iff in H as [Hc Hname].
  apply negb_true_iff in Hc.
  cbn [Filepath.afterLastSlash]. now rewrite (IH Hname), Hc.
Qed.

Lemma afterLastSlash_append :
  forall parent name : string,
    noSlash name = true ->
    Filepath.afterLastSlash (parent ++ String "/" name) = Some name.
Proof.
  induction parent as [|c parent IH]; intros name Hname.
  - change ("" ++ String "/" name) with (String "/" name).
    cbn [Filepath.afterLastSlash].
    now rewrite (afterLastSlash_none name Hname).
  - rewrite append_cons. cbn [Filepath.afterLastSlash].
    now rewrite (IH name Hname).
Qed.

Lemma stripTrailingSlashes_name :
  forall name : string,
    noSlash name = true -> Filepath.stripTrailingSlashes name = name.
Proof.
  induction name as [|c name IH]; intros H; [reflexivity|].
  cbn [noSlash] in H. apply andb_true_iff in H as [Hc Hname].
  apply negb_true_iff in Hc.
  cbn [Filepath.stripTrailingSlashes].
  now rewrite (IH Hname), Hc, andb_false_r.
Qed.

Lemma stripTrailingSlashes_append :
  forall parent name : string,
    noSlash name = true -> name <> "" ->
    Filepath.stripTrailingSlashes (parent ++ name) = parent ++ name.
Proof.
  induction parent as [|c parent IH]; intros name Hname Hne.
  - now apply stripTrailingSlashes_name.
  - rewrite append_cons. cbn [Filepath.stripTrailingSlashes].
    rewrite (IH name Hname Hne).
    replace (String.eqb (parent ++ name) "") with false; [reflexivity|].
    symmetry. apply String.eqb_neq.
    destruct parent; [exact Hne | discriminate].
Qed.

(** The base name of a path that ends in a separator and a name is that
    name. *)
Lemma Base_child :
  forall parent name : string,
    noSlash name = true -> name <> "" ->
    Filepath.Base (parent ++ String "/" name) = name.
Proof.
  intros parent name Hname Hne.
  unfold Filepath.Base.
  replace (String.eqb (parent ++ String "/" name) "") with false.
  2:{ symmetry. apply String.eqb_neq. destruct parent; discriminate. }
  assert (Hstrip :
    Filepath.stripTrailingSlashes (parent ++ String "/" name)
    = parent ++ String "/" name).
  { replace (parent ++ String "/" name) with ((parent ++ "/") ++ name)
      by apply append_assoc.
    now apply stripTrailingSlashes_append. }
  rewrite Hstrip, (afterLastSlash_append parent name Hname).
  apply String.eqb_neq in Hne. now rewrite Hne.
Qed.

(** The base name of a path is never empty; it is the root or has no
    separator. *)
Lemma Base_shape :
  forall path : string,
    Filepath.Base path <> "" /\
    (Filepath.Base path = "/" \/ noSlash (Filepath.Base path) = true).
Proof.
  intros path.
  unfold Filepath.Base.
  destruct (String.eqb path ""); [split; [discriminate | now right]|].
  pose proof (afterLastSlash_noSlash (Filepath.stripTrailingSlashes path))
    as Hlast.
  destruct (Filepath.afterLastSlash (Filepath.stripTrailingSlashes path))
    as [e|].
  - destruct (String.eqb_spec e "") as [->|Hne];
      [split; [discriminate | now left]|].
    split; [exact Hne | now right].
  - destruct (String.eqb_spec (Filepath.stripTrailingSlashes path) "")
      as [Heq|Hne]; [split; [discriminate | now left]|].
    split; [exact Hne | now right].
Qed.

(** [FindPackageTarget] on any log. *)
Lemma FindPackageTarget_log :
  forall (dir : string) (w : World) (log : list Syscall),
    WithResolver.FindPackageTarget dir w log
    = (inr (if os_IsNotExist (Stat w (Filepath.Join [dir; "BUILD"]))
            then ""
            else "//" ++ Filepath.Base dir),
       (log ++ [SysStat (Filepath.Join [dir; "BUILD"])])%list).
Proof.
  intros dir w log.
  unfold WithResolver.FindPackageTarget, io_bind, os_Stat.
  now destruct (os_IsNotExist (Stat w (Filepath.Join [dir; "BUILD"]))).
Qed.

(** X7: [FindPackageTarget] never fails, and its target is either empty or
    [//] followed by a non-empty name that is the root [/] or contains no
    separator: parent directories never appear in a target. *)
Theorem FindPackageTarget_target_shape :
  forall (dir : string) (w : World),
    exists target : string,
      fst (run (WithResolver.FindPackageTarget dir) w) = inr target /\
      (target = "" \/
       exists name : string,
         target = "//" ++ name /\ name <> "" /\
         (name = "/" \/ noSlash name = true)).
Proof.
  intros dir w.
  unfold run. rewrite FindPackageTarget_log. cbn [fst].
  eexists. split; [reflexivity|].
  destruct (os_IsNotExist _); [now left|].
  right. exists (Filepath.Base dir).
  split; [reflexivity|].
  apply Base_shape.
Qed.

(** X8: the target names the last element of the directory path only.  For
    every parent path, a directory [parent/name] that has a BUILD file gets
    the target [//name]: directories of the same name under different
    parents share one target. *)
Theorem FindPackageTarget_last_element :
  forall (parent name : string) (w : World),
    noSlash name = true -> name <> "" ->
    os_IsNotExist
      (Stat w (Filepath.Join [parent ++ String "/" name; "BUILD"])) = false ->
    fst (run (WithResolver.FindPackageTarget (parent ++ String "/" name)) w)
    = inr ("//" ++ name).
Proof.
  intros parent name w Hname Hne Hbuild.
  unfold run. rewrite FindPackageTarget_log. cbn [fst].
  now rewrite Hbuild, (Base_child parent name Hname Hne).
Qed.

Lemma FindPackageTarget_last_element_sample :
  fst (run (WithResolver.FindPackageTarget ("/p" ++ String "/" "lib"))
           sampleTree)
  = inr ("//" ++ "lib").
Proof.
  apply (FindPackageTarget_last_element "/p" "lib" sampleTree).
  - reflexivity.
  - discriminate.
  - reflexivity.
Defined.

(** ** More on dependency resolution *)

(** [ResolveRelativeImport] started on an empty log, then continued. *)
Lemma ResolveDependency_relative :
  forall (f : File) (imp : Import) (currentDir : string) (w : World),
    Type_ imp = RelativeImport ->
    run (WithResolver.ResolveDependency f imp currentDir) w
    = let (r, log) :=
        run (WithResolver.ResolveRelativeImport currentDir (Path imp)) w in
      match r with
      | inl err =>
          (inl (Errorf_resolving_relative_import (Path imp) err), log)
      | inr resolvedPath =>
          let targetDir :=
            if negb (Str.HasSuffix resolvedPath "/")
            then Filepath.Dir resolvedPath
            else resolvedPath in
          (inr (if os_IsNotExist
                     (Stat w (Filepath.Join [targetDir; "BUILD"]))
                then ""
                else "//" ++ Filepath.Base targetDir),
           (log ++ [SysStat (Filepath.Join [targetDir; "BUILD"])])%list)
      end.
Proof.
  intros f imp currentDir w Hkind.
  unfold WithResolver.ResolveDependency, run.
  rewrite Hkind.
  unfold io_bind at 1.
  destruct (WithResolver.ResolveRelativeImport currentDir (Path imp) w [])
    as [[err|resolvedPath] log]; [reflexivity|].
  unfold io_bind at 1.
  now rewrite FindPackageTarget_log.
Qed.

(** X9: the errors of [ResolveDependency].  An error is the wrapped error of
    [ResolveRelativeImport] for a relative import, "not implemented" for a
    bare import and "unknown import type" for any other kind that is not
    builtin; the error "finding package target" of its source is never
    returned. *)
Theorem ResolveDependency_errors :
  forall (f : File) (imp : Import) (currentDir : string) (w : World)
         (err : error),
    fst (run (WithResolver.ResolveDependency f imp currentDir) w) = inl err ->
    (Type_ imp = RelativeImport /\
     exists cause : error,
       fst (run (WithResolver.ResolveRelativeImport currentDir (Path imp)) w)
       = inl cause /\
       err = Errorf_resolving_relative_import (Path imp) cause) \/
    (Type_ imp = BareImport /\
     err = Errorf_bare_import_resolution_not_implemented (Path imp)) \/
    (Type_ imp = AssetImport /\
     err = Errorf_unknown_import_type (Path imp)).
Proof.
  intros f imp currentDir w err Herr.
  destruct (Type_ imp) eqn:Hkind.
  - left. split; [reflexivity|].
    rewrite (ResolveDependency_relative f imp currentDir w Hkind) in Herr.
    destruct (run (WithResolver.ResolveRelativeImport currentDir (Path imp))
                  w) as [[cause|resolvedPath] log];
      cbn [fst] in *; [|discriminate Herr].
    injection Herr as <-. now exists cause.
  - right. left. split; [reflexivity|].
    unfold WithResolver.ResolveDependency in Herr. rewrite Hkind in Herr.
    now injection Herr as <-.
  - unfold WithResolver.ResolveDependency in Herr. rewrite Hkind in Herr.
    discriminate Herr.
  - right. right. split; [reflexivity|].
    unfold WithResolver.ResolveDependency in Herr. rewrite Hkind in Herr.
    now injection Herr as <-.
Qed.

Lemma ResolveDependency_errors_sample :
  let imp := mkImport "./zz" "z" RelativeImport true in
  let err := Errorf_resolving_relative_import "./zz"
               (Errorf_could_not_resolve_import "./zz" "/p") in
  fst (run (WithResolver.ResolveDependency sampleFile imp "/p") sampleTree)
  = inl err /\
  ((Type_ imp = RelativeImport /\
    exists cause : error,
      fst (run (WithResolver.ResolveRelativeImport "/p" (Path imp))
               sampleTree) = inl cause /\
      err = Errorf_resolving_relative_import (Path imp) cause) \/
   (Type_ imp = BareImport /\
    err = Errorf_bare_import_resolution_not_implemented (Path imp)) \/
   (Type_ imp = AssetImport /\
    err = Errorf_unknown_import_type (Path imp))).
Proof.
  split; [reflexivity|].
  apply (ResolveDependency_errors sampleFile
           (mkImport "./zz" "z" RelativeImport true) "/p" sampleTree).
  reflexivity.
Defined.

(** X10: a relative import of a path that exists, be it a file or a
    directory, is answered from the BUILD file of the parent of that path:
    [ResolveDependency] makes two [Stat] calls, on the joined path and on
    BUILD in its parent directory, and returns the target of the parent (or
    the empty target when that BUILD file is missing).  An import of a
    directory is therefore not resolved to the package in that directory. *)
Theorem ResolveDependency_existing_path :
  forall (f : File) (imp : Import) (currentDir : string) (w : World),
    Type_ imp = RelativeImport ->
    isRelativePath (Path imp) = true ->
    let joined := Filepath.Join [currentDir; Path imp] in
    Stat w joined = None ->
    Str.HasSuffix joined "/" = false ->
    let parent := Filepath.Dir joined in
    run (WithResolver.ResolveDependency f imp currentDir) w
    = (inr (if os_IsNotExist (Stat w (Filepath.Join [parent; "BUILD"]))
            then ""
            else "//" ++ Filepath.Base parent),
       [SysStat joined; SysStat (Filepath.Join [parent; "BUILD"])]).
Proof.
  intros f imp currentDir w Hkind Hrel joined Hstat Hslash parent.
  rewrite (ResolveDependency_relative f imp currentDir w Hkind).
  assert (Hrun :
    run (WithResolver.ResolveRelativeImport currentDir (Path imp)) w
    = (inr joined, [SysStat joined])).
  { assert (Hne : String.eqb (Path imp) "" = false).
    { destruct (Path imp); [discriminate Hrel | reflexivity]. }
    unfold WithResolver.ResolveRelativeImport, run.
    rewrite Hne, Hrel.
    rewrite Clean_Join by now apply String.eqb_neq.
    fold joined.
    unfold io_bind, os_Stat. now rewrite Hstat. }
  rewrite Hrun, Hslash.
  reflexivity.
Qed.

Lemma ResolveDependency_existing_path_sample :
  run (WithResolver.ResolveDependency sampleFile
         (mkImport "./lib" "x" RelativeImport true) "/p") sampleTree
  = (inr "", [SysStat "/p/lib"; SysStat "/p/BUILD"]).
Proof.
  apply (ResolveDependency_existing_path sampleFile
           (mkImport "./lib" "x" RelativeImport true) "/p" sampleTree);
    reflexivity.
Defined.

(** ** More on import classification *)

(** X11: the two revisions of [classifyImportType] differ on the asset branch
    only.  For every allow-list and path, the revision with the asset branch
    answers as the revision with the resolver, except that it answers asset
    where the other answers bare and the extension is an asset extension;
    neither revision ever answers asset for a builtin or a relative path. *)
Theorem classifyImportType_revisions_agree :
  forall (allowList : list string) (p : string),
    let k := WithResolver.classifyImportType allowList p in
    let k' := WithAssetKind.classifyImportType allowList p in
    k <> AssetImport /\
    (k' = AssetImport <->
     k = BareImport /\ isAssetExtension (Filepath.Ext p) = true) /\
    (k' <> AssetImport -> k' = k).
Proof.
  intros allowList p k k'.
  subst k k'.
  unfold WithResolver.classifyImportType, WithAssetKind.classifyImportType.
  rewrite asset_branch.
  destruct (IsNodeBuiltin allowList p).
  { split; [discriminate|].
    split; [|reflexivity].
    split; [intros H; discriminate H | intros [H _]; discriminate H]. }
  destruct (isRelativePath p).
  { split; [discriminate|].
    split; [|reflexivity].
    split; [intros H; discriminate H | intros [H _]; discriminate H]. }
  split; [discriminate|].
  destruct (isAssetExtension (Filepath.Ext p)).
  - split; [now split|].
    intros H. now contradiction H.
  - split; [|reflexivity].
    split; [intros H; discriminate H | intros [_ H]; discriminate H].
Qed.

(** ** More on file roles *)

Lemma prefix_app_l :
  forall a b s : string,
    String.prefix (a ++ b) s = true -> String.prefix a s = true.
Proof.
  induction a as [|c a IH]; intros b s H; [now destruct s|].
  rewrite append_cons in H.
  destruct s as [|d s]; [discriminate H|].
  rewrite prefix_cons in *.
  apply andb_true_iff in H as [Hc H].
  rewrite Hc. cbn [andb]. now apply (IH b).
Qed.

Lemma Contains_app_l :
  forall s a b : string,
    Str.Contains s (a ++ b) = true -> Str.Contains s a = true.
Proof.
  induction s as [|c s IH]; intros a b H.
  - cbn [Str.Contains] in *. rewrite orb_false_r in *.
    now apply (prefix_app_l a b).
  - cbn [Str.Contains] in *.
    apply orb_true_iff in H as [H|H]; apply orb_true_iff.
    + left. now apply (prefix_app_l a b).
    + right. now apply (IH a b).
Qed.

Lemma substring_Contains :
  forall (n : nat) (s sub : string),
    String.substring n (String.length sub) s = sub ->
    Str.Contains s sub = true.
Proof.
  induction n as [|n IH]; intros s sub H.
  - apply String.prefix_correct in H.
    destruct s; cbn [Str.Contains]; now rewrite H.
  - destruct s as [|c s].
    + destruct sub; [reflexivity | discriminate H].
    + cbn [String.substring] in H.
      cbn [Str.Contains]. apply orb_true_iff. right. now apply IH.
Qed.

(** A suffix occurs in the string. *)
Lemma HasSuffix_Contains :
  forall s suffix : string,
    Str.HasSuffix s suffix = true -> Str.Contains s suffix = true.
Proof.
  intros s suffix H.
  unfold Str.HasSuffix in H.
  apply andb_true_iff in H as [_ H].
  apply String.eqb_eq in H.
  now apply substring_Contains in H.
Qed.

(** X12: the exact condition of the test role.  A file is a test exactly when
    its lower-cased name contains [.test.] or [.spec.] or ends in [_test.js]
    or [_test.ts]; the content plays no part, so that a test pattern wins
    over a shebang, and the four suffix tests [.test.js], [.test.ts],
    [.spec.js], [.spec.ts] of the source never decide. *)
Theorem classifyFileType_Test_condition :
  forall filename content : string,
    classifyFileType filename content = Test <->
    (let base := Str.ToLower filename in
     Str.Contains base ".test." || Str.Contains base ".spec." ||
     Str.HasSuffix base "_test.js" || Str.HasSuffix base "_test.ts") = true.
Proof.
  intros filename content.
  rewrite classifyFileType_Test_iff.
  cbv zeta.
  set (base := Str.ToLower filename).
  assert (Htest : forall tail : string,
             Str.HasSuffix base (".test." ++ tail) = true ->
             Str.Contains base ".test." = true).
  { intros tail H. apply HasSuffix_Contains in H.
    now apply Contains_app_l in H. }
  assert (Hspec : forall tail : string,
             Str.HasSuffix base (".spec." ++ tail) = true ->
             Str.Contains base ".spec." = true).
  { intros tail H. apply HasSuffix_Contains in H.
    now apply Contains_app_l in H. }
  pose proof (Htest "js") as H1. pose proof (Htest "ts") as H2.
  pose proof (Hspec "js") as H3. pose proof (Hspec "ts") as H4.
  change (".test." ++ "js") with ".test.js" in H1.
  change (".test." ++ "ts") with ".test.ts" in H2.
  change (".spec." ++ "js") with ".spec.js" in H3.
  change (".spec." ++ "ts") with ".spec.ts" in H4.
  destruct (Str.Contains base ".test."), (Str.Contains base ".spec."),
    (Str.HasSuffix base "_test.js"), (Str.HasSuffix base "_test.ts");
    cbn [orb]; try (split; reflexivity).
  destruct (Str.HasSuffix base ".test.js");
    [now discriminate (H1 eq_refl)|].
  destruct (Str.HasSuffix base ".test.ts");
    [now discriminate (H2 eq_refl)|].
  destruct (Str.HasSuffix base ".spec.js");
    [now discriminate (H3 eq_refl)|].
  destruct (Str.HasSuffix base ".spec.ts");
    [now discriminate (H4 eq_refl)|].
  split; intros H; discriminate H.
Qed.

(** X13: the exact condition of the binary role.  A file is a binary exactly
    when it is not a test and its content is the two bytes of the shebang
    followed by at least one more byte. *)
Theorem classifyFileType_Binary_iff :
  forall filename content : string,
    classifyFileType filename content = Binary <->
    classifyFileType filename "" <> Test /\
    exists (c : ascii) (rest : string),
      content = String "#" (String "!" (String c rest)).
Proof.
  intros filename content.
  unfold classifyFileType.
  cbv zeta.
  destruct_test_patterns.
  - split; [intros H; discriminate H|].
    intros [H _]. now contradiction H.
  - split.
    + intros H. split; [cbn; discriminate|].
      destruct content as [|a [|b [|c rest]]]; try discriminate H.
      cbn [String.length Nat.ltb Nat.leb andb String.substring] in H.
      destruct (String.eqb_spec (String a (String b "")) "#!") as [Heq|Hne];
        [|discriminate H].
      injection Heq as -> ->. now exists c, rest.
    + intros (_ & c & rest & ->). reflexivity.
Qed.

(** ** More on the directory pass *)

Lemma extScan_suffix :
  forall path e : string,
    Filepath.extScan path = Some e -> exists stem : string, path = stem ++ e.
Proof.
  induction path as [|c path IH]; intros e H; [discriminate H|].
  cbn [Filepath.extScan] in H.
  destruct (Filepath.extScan path) as [e'|].
  - injection H as <-. destruct (IH e' eq_refl) as [stem ->].
    now exists (String c stem).
  - destruct (Ascii.eqb c ".").
    + injection H as <-. now exists "".
    + destruct (Filepath.IsPathSeparator c); [|discriminate H].
      injection H as <-. exists (String c path).
      clear. induction path as [|d path IH]; [reflexivity|].
      cbn in IH. injection IH as IH.
      rewrite (append_cons c). f_equal.
      rewrite (append_cons d). f_equal. exact IH.
Qed.

Lemma extScan_append :
  forall stem e : string,
    Filepath.extScan e = Some e -> Filepath.extScan (stem ++ e) = Some e.
Proof.
  induction stem as [|c stem IH]; intros e H; [exact H|].
  rewrite append_cons. cbn [Filepath.extScan].
  now rewrite (IH e H).
Qed.

(** X14: [isJavaScriptFile] accepts exactly the names that end in one of the
    six extensions [ResolveRelativeImport] tries, compared byte for byte;
    what stands before the extension, directories included, plays no part. *)
Theorem isJavaScriptFile_iff :
  forall filename : string,
    isJavaScriptFile filename = true <->
    exists stem ext : string,
      In ext WithResolver.jsExtensions /\ filename = stem ++ ext.
Proof.
  intros filename. split.
  - intros H.
    unfold isJavaScriptFile in H. cbv zeta in H.
    assert (Hin : In (Filepath.Ext filename) WithResolver.jsExtensions).
    { unfold WithResolver.jsExtensions. cbn [In].
      repeat (apply orb_true_iff in H as [H|H]);
        apply String.eqb_eq in H; rewrite H; auto 10. }
    unfold Filepath.Ext in *.
    destruct (Filepath.extScan filename) as [e|] eqn:Hscan.
    + destruct (extScan_suffix filename e Hscan) as [stem ->].
      now exists stem, e.
    + cbn in Hin. repeat (destruct Hin as [Hin|Hin]; try discriminate Hin).
      contradiction.
  - intros (stem & ext & Hin & ->).
    unfold isJavaScriptFile, Filepath.Ext.
    assert (Hscan : Filepath.extScan ext = Some ext).
    { cbn in Hin.
      repeat (destruct Hin as [<-|Hin]; [reflexivity|]). contradiction. }
    rewrite (extScan_append stem ext Hscan).
    cbn in Hin.
    repeat (destruct Hin as [<-|Hin]; [reflexivity|]). contradiction.
Qed.

Lemma readsOf_app :
  forall (dir : string) (a b : list DirEntry),
    readsOf dir (a ++ b) = (readsOf dir a ++ readsOf dir b)%list.
Proof.
  intros dir a b.
  unfold readsOf.
  now rewrite List.filter_app, map_app.
Qed.

Section DirectoryPassMore.

Variable ParseCtx : Grammar -> string -> error + Node.
Variable classifyImportType : string -> ImportType.

(** The loop of [ImportDir], whatever the files do: it reads the source
    entries of a prefix of the listing, in order; an error is the error of
    [parseFile] on a source entry that was read, wrapped with its name, and a
    panic is the panic of [parseFile] on a source entry that was read. *)
Lemma importEntries_trace :
  forall (dir : string) (w : World) (files : list DirEntry)
         (ret : gmap string File) (log : list Syscall),
    exists read rest : list DirEntry,
      files = (read ++ rest)%list /\
      snd (importEntries ParseCtx classifyImportType dir files ret w log)
      = (log ++ readsOf dir read)%list /\
      (forall err : error,
          fst (importEntries ParseCtx classifyImportType dir files ret w log)
          = Some (inl err) ->
          exists (info : DirEntry) (cause : error),
            In info read /\ isSourceEntry info = true /\
            fst (run (parseFile ParseCtx classifyImportType
                        dir (entryName info)) w) = Some (inl cause) /\
            err = Errorf_parsing (entryName info) cause) /\
      (fst (importEntries ParseCtx classifyImportType dir files ret w log)
       = None ->
       exists info : DirEntry,
         In info read /\ isSourceEntry info = true /\
         fst (run (parseFile ParseCtx classifyImportType
                     dir (entryName info)) w) = None).
Proof.
  intros dir w files.
  induction files as [|info files IH]; intros ret log.
  - exists [], []. split; [reflexivity|].
    split; [cbn; now rewrite app_nil_r|].
    split; [intros err H; discriminate H | intros H; discriminate H].
  - rewrite importEntries_cons.
    destruct (isSourceEntry info) eqn:Hsel.
    + cbv zeta.
      destruct (fst (run (parseFile ParseCtx classifyImportType
                            dir (entryName info)) w))
        as [[cause|f]|] eqn:Hparse.
      * exists [info], files. split; [reflexivity|].
        split; [now rewrite readsOf_cons, Hsel|].
        split; [|intros H; discriminate H].
        intros err Herr. injection Herr as <-.
        exists info, cause. repeat split; auto. now left.
      * destruct (IH (<[entryName info := f]> ret)
                    (log ++ [SysReadFile
                               (Filepath.Join [dir; entryName info])])%list)
          as (read & rest & -> & Hlog & Herr & Hpanic).
        exists (info :: read), rest. split; [reflexivity|].
        split; [|split].
        -- rewrite Hlog, readsOf_cons, Hsel. now rewrite <- app_assoc.
        -- intros err H. destruct (Herr err H) as (i & cause & Hin & Hrest).
           exists i, cause. split; [now right | exact Hrest].
        -- intros H. destruct (Hpanic H) as (i & Hin & Hrest).
           exists i. split; [now right | exact Hrest].
      * exists [info], files. split; [reflexivity|].
        split; [now rewrite readsOf_cons, Hsel|].
        split; [intros err H; discriminate H|].
        intros _. exists info. repeat split; auto. now left.
    + destruct (IH ret log) as (read & rest & -> & Hlog & Herr & Hpanic).
      exists (info :: read), rest. split; [reflexivity|].
      split; [|split].
      * now rewrite Hlog, readsOf_cons, Hsel.
      * intros err H. destruct (Herr err H) as (i & cause & Hin & Hrest).
        exists i, cause. split; [now right | exact Hrest].
      * intros H. destruct (Hpanic H) as (i & Hin & Hrest).
        exists i. split; [now right | exact Hrest].
Qed.

(** X15: what [ImportDir] touches.  Whatever the outcome (a map of files, an
    error, or a panic of the traversal of one file), it lists the directory
    once and then reads, in the order of the listing and without gaps, the
    source entries (regular files with one of the six extensions) of a prefix
    of the listing; it never calls [Stat], and it reads no other entry and no
    file outside the directory. *)
Theorem ImportDir_calls :
  forall (dir : string) (w : World),
    exists read : list DirEntry,
      snd (run (ImportDir ParseCtx classifyImportType dir) w)
      = SysReadDir dir :: readsOf dir read /\
      match ReadDir w dir with
      | inl _ => read = []
      | inr files => exists rest : list DirEntry, files = (read ++ rest)%list
      end.
Proof.
  intros dir w.
  unfold ImportDir, run, io_bind, os_ReadDir.
  destruct (ReadDir w dir) as [errno|files].
  - now exists [].
  - destruct (importEntries_trace dir w files ∅ ([] ++ [SysReadDir dir])%list)
      as (read & rest & Hfiles & Hlog & _).
    exists read. split; [exact Hlog | now exists rest].
Qed.

(** X16: the errors of [ImportDir] are scoped.  An error that [ImportDir]
    returns is either the error of listing the directory, passed on as it is,
    or the error that [parseFile] returns for one source entry of the listing
    (the file cannot be read, or the parser returns an error), wrapped with
    the name of that entry. *)
Theorem ImportDir_errors :
  forall (dir : string) (w : World) (err : error),
    fst (run (ImportDir ParseCtx classifyImportType dir) w)
    = Some (inl err) ->
    (exists errno : Errno,
        ReadDir w dir = inl errno /\ err = PathError dir errno) \/
    (exists (files : list DirEntry) (info : DirEntry) (cause : error),
        ReadDir w dir = inr files /\ In info files /\
        isSourceEntry info = true /\
        fst (run (parseFile ParseCtx classifyImportType
                    dir (entryName info)) w) = Some (inl cause) /\
        err = Errorf_parsing (entryName info) cause).
Proof.
  intros dir w err.
  unfold ImportDir, run at 1, io_bind, os_ReadDir.
  destruct (ReadDir w dir) as [errno|files] eqn:Hdir.
  - intros H. injection H as <-. left. now exists errno.
  - intros H. right.
    destruct (importEntries_trace dir w files ∅ ([] ++ [SysReadDir dir])%list)
      as (read & rest & Hfiles & _ & Herr & _).
    destruct (Herr err H) as (info & cause & Hin & Hsel & Hparse & ->).
    exists files, info, cause.
    repeat split; auto.
    rewrite Hfiles. apply in_or_app. now left.
Qed.

(** X17: when [parseFile] returns a file for every source entry of the
    directory (each can be read, the parser returns a tree for it, and the
    traversal of the tree does not panic), [ImportDir] returns a map whose
    keys are exactly the names of the source entries, each bound to the file
    parsed under that name; entries that are not regular or have another
    extension leave no key. *)
Theorem ImportDir_returns_sources :
  forall (dir : string) (w : World) (files : list DirEntry),
    ReadDir w dir = inr files ->
    (forall e : DirEntry,
        In e files -> isSourceEntry e = true ->
        exists f : File,
          fst (run (parseFile ParseCtx classifyImportType
                      dir (entryName e)) w) = Some (inr f)) ->
    exists m : gmap string File,
      fst (run (ImportDir ParseCtx classifyImportType dir) w)
      = Some (inr m) /\
      forall (name : string) (f : File),
        m !! name = Some f <->
        (exists info : DirEntry,
            In info files /\ isSourceEntry info = true /\
            entryName info = name) /\
        fst (run (parseFile ParseCtx classifyImportType dir name) w)
        = Some (inr f).
Proof.
  intros dir w files Hdir Hall.
  destruct (ImportDir_all_parse ParseCtx classifyImportType
              dir w files Hdir Hall) as (m & Hrun & Hlookup).
  exists m. split; [now rewrite Hrun|].
  intros name f. rewrite Hlookup.
  destruct (existsb _ files) eqn:Hex.
  - apply existsb_exists in Hex as (info & Hin & Hinfo).
    apply andb_true_iff in Hinfo as [Hsel Hname].
    apply String.eqb_eq in Hname.
    destruct (Hall info Hin Hsel) as [f' Hf']. rewrite Hname in Hf'.
    rewrite Hf'. split.
    + intros H. injection H as <-. split; [now exists info | reflexivity].
    + intros [_ H]. now injection H as <-.
  - split; [intros H; discriminate H|].
    intros [(info & Hin & Hsel & Hname) _].
    assert (Hex' : existsb (fun e => isSourceEntry e &&
                                     String.eqb (entryName e) name) files
                   = true).
    { apply existsb_exists. exists info. split; [exact Hin|].
      now rewrite Hsel, Hname, String.eqb_refl. }
    rewrite Hex in Hex'. discriminate Hex'.
Qed.

(** A source entry whose traversal panics, after source entries that parse,
    makes [ImportDir] panic: the pass returns neither a map nor an error. *)
Lemma ImportDir_traversal_panic :
  forall (dir : string) (w : World) (before after : list DirEntry)
         (info : DirEntry),
    ReadDir w dir = inr (before ++ info :: after)%list ->
    (forall e : DirEntry,
        In e before -> isSourceEntry e = true ->
        exists f : File,
          fst (run (parseFile ParseCtx classifyImportType
                      dir (entryName e)) w) = Some (inr f)) ->
    isSourceEntry info = true ->
    fst (run (parseFile ParseCtx classifyImportType
                dir (entryName info)) w) = None ->
    run (ImportDir ParseCtx classifyImportType dir) w
    = (None, SysReadDir dir :: readsOf dir (before ++ [info])).
Proof.
  intros dir w before after info Hdir Hbefore Hsel Hpanic.
  unfold ImportDir, run, io_bind, os_ReadDir.
  rewrite Hdir.
  now rewrite (importEntries_panic ParseCtx classifyImportType
                 dir w before after info ∅ _ Hbefore Hsel Hpanic).
Qed.

End DirectoryPassMore.

(** In /q of [sampleExportDir] the traversal of b.js panics at its export
    statement, and so does [ImportDir], after it has read a.js and b.js. *)
Lemma ImportDir_traversal_panic_sample :
  run (ImportDir sampleParseCtx
         (WithResolver.classifyImportType sampleAllowList) "/q")
      sampleExportDir
  = (None, [SysReadDir "/q"; SysReadFile "/q/a.js"; SysReadFile "/q/b.js"]).
Proof.
  apply (ImportDir_traversal_panic sampleParseCtx
           (WithResolver.classifyImportType sampleAllowList)
           "/q" sampleExportDir
           [mkDirEntry "a.js" true] [mkDirEntry "c.ts" true]
           (mkDirEntry "b.js" true)).
  - reflexivity.
  - intros e [<-|[]] _. eexists. reflexivity.
  - reflexivity.
  - reflexivity.
Qed.

Lemma ImportDir_errors_sample :
  let err := Errorf_parsing "b.js"
               (Errorf_reading_file (PathError "/q/b.js" EACCES)) in
  fst (run (ImportDir sampleParseCtx
              (WithResolver.classifyImportType sampleAllowList) "/q")
           sampleUnreadableDir) = Some (inl err) /\
  ((exists errno : Errno,
       ReadDir sampleUnreadableDir "/q" = inl errno /\
       err = PathError "/q" errno) \/
   (exists (files : list DirEntry) (info : DirEntry) (cause : error),
       ReadDir sampleUnreadableDir "/q" = inr files /\ In info files /\
       isSourceEntry info = true /\
       fst (run (parseFile sampleParseCtx
                   (WithResolver.classifyImportType sampleAllowList)
                   "/q" (entryName info)) sampleUnreadableDir)
       = Some (inl cause) /\
       err = Errorf_parsing (entryName info) cause)).
Proof.
  split; [reflexivity|].
  apply (ImportDir_errors sampleParseCtx
           (WithResolver.classifyImportType sampleAllowList)
           "/q" sampleUnreadableDir).
  reflexivity.
Defined.

Lemma ImportDir_returns_sources_sample :
  exists m : gmap string File,
    fst (run (ImportDir sampleParseCtx
                (WithResolver.classifyImportType sampleAllowList) "/q")
             sampleSourceDir) = Some (inr m) /\
    forall (name : string) (f : File),
      m !! name = Some f <->
      (exists info : DirEntry,
          In info [mkDirEntry "a.js" true; mkDirEntry "b.js" true;
                   mkDirEntry "c.ts" true; mkDirEntry "notes.txt" true;
                   mkDirEntry "sub" false] /\
          isSourceEntry info = true /\ entryName info = name) /\
      fst (run (parseFile sampleParseCtx
                  (WithResolver.classifyImportType sampleAllowList)
                  "/q" name) sampleSourceDir) = Some (inr f).
Proof.
  apply (ImportDir_returns_sources sampleParseCtx
           (WithResolver.classifyImportType sampleAllowList)
           "/q" sampleSourceDir
           [mkDirEntry "a.js" true; mkDirEntry "b.js" true;
            mkDirEntry "c.ts" true; mkDirEntry "notes.txt" true;
            mkDirEntry "sub" false]).
  - reflexivity.
  - intros e [<-|[<-|[<-|[<-|[<-|[]]]]]] Hsel; try discriminate Hsel;
      eexists; reflexivity.
Defined.

(** ** Import extraction *)

Lemma TrimLeft_starts :
  forall s cutset : string,
    startsInCutset (TrimLeft s cutset) cutset = false.
Proof.
  induction s as [|c s IH]; intros cutset; [reflexivity|].
  cbn [TrimLeft].
  destruct (inCutset c cutset) eqn:Hc; [apply IH|].
  cbn [startsInCutset]. exact Hc.
Qed.

Lemma TrimRight_starts :
  forall s cutset : string,
    startsInCutset s cutset = false ->
    startsInCutset (TrimRight s cutset) cutset = false.
Proof.
  intros [|c s] cutset H; [reflexivity|].
  cbn [startsInCutset] in H.
  cbn [TrimRight]. rewrite H, andb_false_r.
  cbn [startsInCutset]. exact H.
Qed.

Lemma TrimRight_ends :
  forall s cutset : string,
    endsInCutset (TrimRight s cutset) cutset = false.
Proof.
  induction s as [|c s IH]; intros cutset; [reflexivity|].
  cbn [TrimRight].
  specialize (IH cutset).
  destruct (TrimRight s cutset) as [|d r] eqn:Hr.
  - cbn [String.eqb andb].
    destruct (inCutset c cutset) eqn:Hc; [reflexivity|].
    cbn [endsInCutset]. exact Hc.
  - cbn [String.eqb andb]. exact IH.
Qed.

Lemma TrimLeft_cut :
  forall opening s cutset : string,
    allInCutset opening cutset = true ->
    TrimLeft (opening ++ s) cutset = TrimLeft s cutset.
Proof.
  induction opening as [|c opening IH]; intros s cutset H; [reflexivity|].
  cbn [allInCutset] in H. apply andb_true_iff in H as [Hc H].
  rewrite append_cons. cbn [TrimLeft]. rewrite Hc. now apply IH.
Qed.

Lemma TrimRight_all :
  forall closing cutset : string,
    allInCutset closing cutset = true -> TrimRight closing cutset = "".
Proof.
  induction closing as [|c closing IH]; intros cutset H; [reflexivity|].
  cbn [allInCutset] in H. apply andb_true_iff in H as [Hc H].
  cbn [TrimRight]. now rewrite (IH cutset H), Hc.
Qed.

Lemma TrimRight_cut :
  forall s closing cutset : string,
    allInCutset closing cutset = true ->
    TrimRight (s ++ closing) cutset = TrimRight s cutset.
Proof.
  induction s as [|c s IH]; intros closing cutset H.
  - now apply TrimRight_all.
  - rewrite append_cons. cbn [TrimRight]. now rewrite (IH closing cutset H).
Qed.

Lemma TrimRight_fixed :
  forall s cutset : string,
    endsInCutset s cutset = false -> TrimRight s cutset = s.
Proof.
  induction s as [|c s IH]; intros cutset H; [reflexivity|].
  cbn [TrimRight].
  destruct s as [|d r].
  - cbn [endsInCutset] in H. cbn [TrimRight String.eqb andb].
    now rewrite H.
  - change (endsInCutset (String c (String d r)) cutset)
      with (endsInCutset (String d r) cutset) in H.
    rewrite (IH cutset H). reflexivity.
Qed.

(** X18: [strings.Trim] with the cutset of the two quotes gives the text
    between the quotes.  Whatever quotes open and close the text of a string
    node, and however many, the import path is the text between them,
    provided that text has itself no quote at either end. *)
Theorem Trim_strips_quotes :
  forall opening body closing : string,
    allInCutset opening quoteCutset = true ->
    allInCutset closing quoteCutset = true ->
    startsInCutset body quoteCutset = false ->
    endsInCutset body quoteCutset = false ->
    Trim (opening ++ body ++ closing) quoteCutset = body.
Proof.
  intros opening body closing Hopen Hclose Hstart Hend.
  unfold Trim.
  rewrite (TrimLeft_cut opening _ _ Hopen).
  destruct body as [|c body].
  - change ("" ++ closing) with closing.
    assert (Hleft : forall s, allInCutset s quoteCutset = true ->
                              TrimLeft s quoteCutset = "").
    { induction s as [|d s IH]; intros H; [reflexivity|].
      cbn [allInCutset] in H. apply andb_true_iff in H as [Hd H].
      cbn [TrimLeft]. rewrite Hd. now apply IH. }
    now rewrite (Hleft closing Hclose).
  - cbn [startsInCutset] in Hstart.
    rewrite append_cons. cbn [TrimLeft]. rewrite Hstart.
    rewrite <- append_cons.
    rewrite (TrimRight_cut _ _ _ Hclose).
    now apply TrimRight_fixed.
Qed.

Lemma Trim_strips_quotes_sample :
  Trim ("'" ++ "./lib" ++ "'") quoteCutset = "./lib".
Proof.
  apply (Trim_strips_quotes "'" "./lib" "'"); reflexivity.
Defined.

Lemma fold_appendImport :
  forall (new : list Import) (file : File),
    let file' := fold_left appendImport new file in
    Name file' = Name file /\ FileName file' = FileName file /\
    FileType_ file' = FileType_ file /\ HasDefault file' = HasDefault file /\
    Imports file' = (Imports file ++ new)%list.
Proof.
  induction new as [|imp new IH]; intros file.
  - cbn. now rewrite app_nil_r.
  - cbn [fold_left].
    destruct (IH (appendImport file imp)) as (H1 & H2 & H3 & H4 & H5).
    cbv zeta. rewrite H1, H2, H3, H4, H5.
    cbn. now rewrite <- app_assoc.
Qed.

(** The path found by the first loop of [extractImportStatement] is empty or
    a trimmed text. *)
Lemma importStatementLoop_path :
  forall (children : list Node) (source importPath : string)
         (names : list string) (dflt : bool)
         (importPath' : string) (names' : list string) (dflt' : bool),
    importStatementLoop children source importPath names dflt
    = Some (importPath', names', dflt') ->
    startsInCutset importPath quoteCutset = false ->
    endsInCutset importPath quoteCutset = false ->
    startsInCutset importPath' quoteCutset = false /\
    endsInCutset importPath' quoteCutset = false.
Proof.
  induction children as [|child children IH];
    intros source importPath names dflt importPath' names' dflt' H Hs He.
  - cbn in H. injection H as <- _ _. now split.
  - cbn [importStatementLoop] in H.
    destruct (String.eqb (nodeType child) "string").
    + destruct (Content child (Some source)) as [pathStr|];
        [|discriminate H].
      apply (IH _ _ _ _ _ _ _ H).
      * unfold Trim. apply TrimRight_starts, TrimLeft_starts.
      * unfold Trim. apply TrimRight_ends.
    + destruct (String.eqb (nodeType child) "import_clause").
      * destruct (extractImportClause child source) as [[n d]|];
          [|discriminate H].
        now apply (IH _ _ _ _ _ _ _ H).
      * now apply (IH _ _ _ _ _ _ _ H).
Qed.

Section ExtractionProps.

Variable classify : string -> ImportType.

Lemma importsOf_extracted :
  forall (importPath : string) (names : list string) (dflt : bool),
    importPath <> "" ->
    startsInCutset importPath quoteCutset = false ->
    endsInCutset importPath quoteCutset = false ->
    Forall (fun imp => extractedImport classify imp /\
                       Path imp = importPath)
           (importsOf classify importPath names dflt).
Proof.
  intros importPath names dflt Hne Hs He.
  unfold importsOf.
  destruct names as [|first names].
  - constructor; [|constructor]. now repeat split.
  - apply List.Forall_forall. intros imp Hin.
    apply in_map_iff in Hin as (name & <- & _).
    now repeat split.
Qed.

(** [extractImportStatement] keeps the file and appends extracted imports. *)
Lemma extractImportStatement_keeps :
  forall (node : Node) (source : string) (file file' : File),
    extractImportStatement classify node source file = Some file' ->
    Name file' = Name file /\ FileName file' = FileName file /\
    FileType_ file' = FileType_ file /\ HasDefault file' = HasDefault file /\
    exists new : list Import,
      Imports file' = (Imports file ++ new)%list /\
      Forall (extractedImport classify) new.
Proof.
  intros node source file file' H.
  unfold extractImportStatement in H.
  destruct (importStatementLoop (nodeChildren node) source "" [] false)
    as [[[importPath names] dflt]|] eqn:Hloop; [|discriminate H].
  destruct (importStatementLoop_path _ _ _ _ _ _ _ _ Hloop eq_refl eq_refl)
    as [Hs He].
  destruct (String.eqb_spec importPath "") as [->|Hne]; cbn [negb] in H.
  - injection H as <-.
    repeat split.
    exists []. now rewrite app_nil_r.
  - injection H as <-.
    destruct (fold_appendImport (importsOf classify importPath names dflt)
                file) as (H1 & H2 & H3 & H4 & H5).
    repeat (split; [assumption|]).
    exists (importsOf classify importPath names dflt).
    split; [exact H5|].
    eapply List.Forall_impl;
      [|exact (importsOf_extracted importPath names dflt Hne Hs He)].
    now intros imp [Himp _].
Qed.

(** X19: what [extractImportStatement] does to the file.  It only appends
    imports: the imports there are kept in front, and the name, the file
    name, the role and the default-export flag are left as they are.  The
    imports it appends all carry the same path, which is not empty and has no
    quote at either end, and their kind is the classification of that path.
    There is one import per imported name, in the order of the names, and a
    single one with an empty name when there is none; an import is marked
    default only if its name is the first name. *)
Theorem extractImportStatement_appends :
  forall (node : Node) (source : string) (file file' : File),
    extractImportStatement classify node source file = Some file' ->
    Name file' = Name file /\ FileName file' = FileName file /\
    FileType_ file' = FileType_ file /\ HasDefault file' = HasDefault file /\
    exists new : list Import,
      Imports file' = (Imports file ++ new)%list /\
      Forall (extractedImport classify) new /\
      (forall i j : Import, In i new -> In j new -> Path i = Path j) /\
      (forall i : Import,
          In i new -> IsDefault i = true ->
          exists first : Import,
            head new = Some first /\
            ImportedName i = ImportedName first) /\
      exists (importPath : string) (names : list string) (dflt : bool),
        importStatementLoop (nodeChildren node) source "" [] false
        = Some (importPath, names, dflt) /\
        (importPath = "" -> new = []) /\
        (importPath <> "" ->
         map ImportedName new
         = match names with [] => [""] | _ => names end).
Proof.
  intros node source file file' H.
  unfold extractImportStatement in H.
  destruct (importStatementLoop (nodeChildren node) source "" [] false)
    as [[[importPath names] dflt]|] eqn:Hloop; [|discriminate H].
  destruct (importStatementLoop_path _ _ _ _ _ _ _ _ Hloop eq_refl eq_refl)
    as [Hs He].
  destruct (String.eqb_spec importPath "") as [->|Hne]; cbn [negb] in H.
  - injection H as <-.
    repeat split.
    exists []. rewrite app_nil_r.
    repeat split; try easy.
    exists "", names, dflt. repeat split; try easy.
  - injection H as <-.
    destruct (fold_appendImport (importsOf classify importPath names dflt)
                file) as (H1 & H2 & H3 & H4 & H5).
    repeat (split; [assumption|]).
    exists (importsOf classify importPath names dflt).
    split; [exact H5|].
    pose proof (importsOf_extracted importPath names dflt Hne Hs He) as Hall.
    split.
    { eapply List.Forall_impl; [|exact Hall]. now intros imp [Himp _]. }
    split.
    { intros i j Hi Hj.
      rewrite List.Forall_forall in Hall.
      destruct (Hall i Hi) as [_ ->]. now destruct (Hall j Hj) as [_ ->]. }
    split.
    { intros i Hi Hdefault.
      unfold importsOf in *.
      destruct names as [|first names].
      - destruct Hi as [<-|[]]. discriminate Hdefault.
      - cbn [map head]. eexists. split; [reflexivity|].
        apply in_map_iff in Hi as (name & <- & _).
        cbn in Hdefault |- *.
        apply andb_true_iff in Hdefault as [_ Hname].
        now apply String.eqb_eq in Hname. }
    exists importPath, names, dflt.
    split; [reflexivity|].
    split; [intros Heq; now contradiction Hne|].
    intros _.
    unfold importsOf.
    destruct names as [|first names]; [reflexivity|].
    rewrite map_map. cbn [ImportedName]. now rewrite map_id.
Qed.

End ExtractionProps.

Lemma extractImportStatement_appends_sample :
  exists file' : File,
    extractImportStatement (WithResolver.classifyImportType sampleAllowList)
      (mkNode "import_statement" 38 63
         [ mkNode "import_clause" 45 52
             [ mkNode "namespace_import" 45 52
                 [ mkNode "identifier" 50 52 [] ] ];
           mkNode "string" 58 62 [] ])
      sampleSource sampleFile = Some file' /\
    HasDefault file' = HasDefault sampleFile.
Proof.
  eexists. split; [reflexivity|].
  apply (extractImportStatement_appends
           (WithResolver.classifyImportType sampleAllowList)
           (mkNode "import_statement" 38 63
              [ mkNode "import_clause" 45 52
                  [ mkNode "namespace_import" 45 52
                      [ mkNode "identifier" 50 52 [] ] ];
                mkNode "string" 58 62 [] ])
           sampleSource sampleFile).
  reflexivity.
Defined.


(** Induction on syntax trees. *)
Lemma Node_tree_ind :
  forall P : Node -> Prop,
    (forall (type : string) (startByte endByte : nat) (children : list Node),
        Forall P children -> P (mkNode type startByte endByte children)) ->
    forall n : Node, P n.
Proof.
  intros P Hnode.
  fix IH 1.
  intros [type startByte endByte children].
  apply Hnode.
  induction children as [|child children IHchildren]; constructor.
  - apply IH.
  - exact IHchildren.
Qed.

Section TreeProps.

Variable classify : string -> ImportType.

Lemma extractImportsAndExports_children :
  forall (n : Node) (source : string) (file : File),
    extractImportsAndExports classify n source file
    = extractChildren classify (nodeChildren n) source file.
Proof.
  intros [type startByte endByte children] source file.
  cbn [extractImportsAndExports nodeChildren].
  revert file.
  induction children as [|child children IH]; intros file; [reflexivity|].
  cbn [extractChildren].
  destruct (if String.eqb (nodeType child) "import_statement" then _ else _)
    as [file'|]; [apply IH | reflexivity].
Qed.

(** [checkForDefaultExport] returns only for an empty text from the nil
    slice, and then changes nothing. *)
Lemma checkForDefaultExport_some :
  forall (node : Node) (file file' : File),
    checkForDefaultExport node file = Some file' ->
    endByte node = 0 /\ file' = file.
Proof.
  intros node file file' H.
  unfold checkForDefaultExport, Content in H.
  cbn [String.length] in H.
  destruct (startByte node <=? endByte node)%nat eqn:Hs; [|discriminate H].
  destruct (endByte node <=? 0)%nat eqn:He; [|discriminate H].
  apply Nat.leb_le in Hs, He.
  assert (He0 : endByte node = 0) by lia.
  assert (Hs0 : startByte node = 0) by lia.
  rewrite He0, Hs0 in H. cbn in H.
  injection H as <-. now split.
Qed.

Lemma checkForDefaultExport_none :
  forall (node : Node) (file : File),
    0 < endByte node -> checkForDefaultExport node file = None.
Proof.
  intros node file H.
  unfold checkForDefaultExport, Content.
  cbn [String.length].
  replace (endByte node <=? 0)%nat with false;
    [now rewrite andb_false_r|].
  symmetry. apply Nat.leb_gt. exact H.
Qed.

(** The traversal keeps the file and appends extracted imports. *)
Lemma extractImportsAndExports_keeps :
  forall (n : Node) (source : string) (file file' : File),
    extractImportsAndExports classify n source file = Some file' ->
    Name file' = Name file /\ FileName file' = FileName file /\
    FileType_ file' = FileType_ file /\ HasDefault file' = HasDefault file /\
    exists new : list Import,
      Imports file' = (Imports file ++ new)%list /\
      Forall (extractedImport classify) new.
Proof.
  intros n.
  induction n as [type sb eb children IH] using Node_tree_ind.
  intros source file file'.
  rewrite extractImportsAndExports_children. cbn [nodeChildren].
  revert file.
  induction IH as [|child children Hchild _ IHchildren]; intros file H.
  - cbn in H. injection H as <-.
    repeat split. exists []. now rewrite app_nil_r.
  - cbn [extractChildren] in H.
    assert (Hstep : forall mid : File,
      (if String.eqb (nodeType child) "import_statement"
       then extractImportStatement classify child source file
       else if String.eqb (nodeType child) "export_statement"
            then checkForDefaultExport child file
            else extractImportsAndExports classify child source file)
      = Some mid ->
      Name mid = Name file /\ FileName mid = FileName file /\
      FileType_ mid = FileType_ file /\ HasDefault mid = HasDefault file /\
      exists new : list Import,
        Imports mid = (Imports file ++ new)%list /\
        Forall (extractedImport classify) new).
    { intros mid Hmid.
      destruct (String.eqb (nodeType child) "import_statement").
      - exact (extractImportStatement_keeps classify child source file
                 mid Hmid).
      - destruct (String.eqb (nodeType child) "export_statement").
        + apply checkForDefaultExport_some in Hmid as [_ ->].
          repeat split. exists []. now rewrite app_nil_r.
        + now apply Hchild in Hmid. }
    destruct (if String.eqb (nodeType child) "import_statement" then _ else _)
      as [mid|]; [|discriminate H].
    destruct (Hstep mid eq_refl) as (H1 & H2 & H3 & H4 & new1 & H5 & H6).
    destruct (IHchildren mid H) as (G1 & G2 & G3 & G4 & new2 & G5 & G6).
    rewrite G1, G2, G3, G4, H1, H2, H3, H4.
    repeat split.
    exists (new1 ++ new2)%list.
    split; [now rewrite G5, H5, <- app_assoc|].
    apply Forall_app. now split.
Qed.

(** X20: what the extraction leaves alone.  Whenever
    [extractImportsAndExports] returns, the name, the file name and the role
    of the file are as before and so is its default-export flag: the flag is
    never set.  The imports of the file are kept in front, and every import
    appended has a non-empty path without quotes at its ends and the kind its
    path is classified as. *)
Theorem extractImportsAndExports_invariant :
  forall (n : Node) (source : string) (file file' : File),
    extractImportsAndExports classify n source file = Some file' ->
    Name file' = Name file /\ FileName file' = FileName file /\
    FileType_ file' = FileType_ file /\ HasDefault file' = HasDefault file /\
    exists new : list Import,
      Imports file' = (Imports file ++ new)%list /\
      Forall (extractedImport classify) new.
Proof.
  exact extractImportsAndExports_keeps.
Qed.

(** X21: the traversal panics at the first export statement it reaches.  An
    export statement among the children of the root, with any text at all,
    makes [extractImportsAndExports] panic in [checkForDefaultExport], which
    takes the text of the node from the nil slice; nothing is returned for
    the file, whatever else it contains. *)
Theorem extractImportsAndExports_export_panics :
  forall (root child : Node) (source : string) (file : File),
    In child (nodeChildren root) ->
    nodeType child = "export_statement" ->
    0 < endByte child ->
    extractImportsAndExports classify root source file = None.
Proof.
  intros root child source file Hin Htype Hend.
  rewrite extractImportsAndExports_children.
  revert file.
  induction (nodeChildren root) as [|c children IH]; intros file;
    [contradiction|].
  cbn [extractChildren].
  destruct Hin as [->|Hin].
  - rewrite Htype. cbn [String.eqb Ascii.eqb Bool.eqb].
    change (String.eqb "export_statement" "import_statement") with false.
    change (String.eqb "export_statement" "export_statement") with true.
    cbv iota.
    now rewrite (checkForDefaultExport_none child file Hend).
  - destruct (if String.eqb (nodeType c) "import_statement" then _ else _)
      as [mid|]; [now apply IH | reflexivity].
Qed.

End TreeProps.

Lemma extractImportsAndExports_invariant_sample :
  exists file' : File,
    extractImportsAndExports (WithResolver.classifyImportType sampleAllowList)
      sampleSyntaxTree sampleSource sampleFile = Some file' /\
    HasDefault file' = HasDefault sampleFile /\
    length (Imports file') = 5.
Proof.
  eexists. split; [reflexivity|].
  split; [|reflexivity].
  apply (extractImportsAndExports_invariant
           (WithResolver.classifyImportType sampleAllowList)
           sampleSyntaxTree sampleSource sampleFile).
  reflexivity.
Defined.

Lemma extractImportsAndExports_export_panics_sample :
  extractImportsAndExports (WithResolver.classifyImportType sampleAllowList)
    sampleExportTree sampleExportSource sampleFile = None.
Proof.
  apply (extractImportsAndExports_export_panics
           (WithResolver.classifyImportType sampleAllowList)
           sampleExportTree
           (mkNode "export_statement" 0 16
              [ mkNode "export" 0 6 [];
                mkNode "default" 7 14 [];
                mkNode "number" 15 16 [] ])).
  - now left.
  - reflexivity.
  - cbn. lia.
Defined.


Lemma spansWithin_children :
  forall (source : string) (n : Node),
    spansWithin source n = true ->
    Forall (fun c => spansWithin source c = true) (nodeChildren n).
Proof.
  intros source [type startByte endByte children] H.
  cbn [spansWithin] in H. apply andb_true_iff in H as [_ H].
  cbn [nodeChildren].
  apply List.Forall_forall. intros c Hc.
  now apply (proj1 (forallb_forall _ _) H).
Qed.

Lemma Content_within :
  forall (source : string) (n : Node),
    spansWithin source n = true ->
    exists text : string, Content n (Some source) = Some text.
Proof.
  intros source [type sb eb children] H.
  cbn [spansWithin] in H. apply andb_true_iff in H as [H _].
  unfold Content. cbn [startByte endByte].
  rewrite H. now eexists.
Qed.

Lemma appendFirstIdentifier_within :
  forall (source : string) (child : Node) (names : list string),
    spansWithin source child = true ->
    exists names' : list string,
      appendFirstIdentifier child source names = Some names'.
Proof.
  intros source child names H.
  unfold appendFirstIdentifier, firstIdentifier.
  destruct (List.find _ (nodeChildren child)) as [g|] eqn:Hfind;
    [|now eexists].
  apply List.find_some in Hfind as [Hin _].
  pose proof (spansWithin_children source child H) as Hall.
  rewrite List.Forall_forall in Hall.
  destruct (Content_within source g (Hall g Hin)) as [text ->].
  now eexists.
Qed.

Lemma namedImportsLoop_within :
  forall (source : string) (children : list Node) (names : list string),
    Forall (fun c => spansWithin source c = true) children ->
    exists names' : list string,
      namedImportsLoop children source names = Some names'.
Proof.
  intros source children.
  induction children as [|child children IH]; intros names H;
    [now eexists|].
  inversion H as [|? ? Hchild Hrest]; subst.
  cbn [namedImportsLoop].
  destruct (String.eqb (nodeType child) "import_specifier");
    [|now apply IH].
  destruct (appendFirstIdentifier_within source child names Hchild)
    as [names' ->].
  now apply IH.
Qed.

Lemma importClauseLoop_within :
  forall (source : string) (children : list Node) (names : list string)
         (dflt : bool),
    Forall (fun c => spansWithin source c = true) children ->
    exists r : list string * bool,
      importClauseLoop children source names dflt = Some r.
Proof.
  intros source children.
  induction children as [|child children IH]; intros names dflt H;
    [now eexists|].
  inversion H as [|? ? Hchild Hrest]; subst.
  cbn [importClauseLoop].
  destruct (String.eqb (nodeType child) "identifier").
  { destruct (Content_within source child Hchild) as [text ->].
    now apply IH. }
  destruct (String.eqb (nodeType child) "namespace_import").
  { destruct (appendFirstIdentifier_within source child names Hchild)
      as [names' ->].
    now apply IH. }
  destruct (String.eqb (nodeType child) "named_imports"); [|now apply IH].
  unfold extractNamedImports.
  destruct (namedImportsLoop_within source (nodeChildren child) names
              (spansWithin_children source child Hchild)) as [names' ->].
  now apply IH.
Qed.

Lemma importStatementLoop_within :
  forall (source : string) (children : list Node) (importPath : string)
         (names : list string) (dflt : bool),
    Forall (fun c => spansWithin source c = true) children ->
    exists r : string * list string * bool,
      importStatementLoop children source importPath names dflt = Some r.
Proof.
  intros source children.
  induction children as [|child children IH]; intros importPath names dflt H;
    [now eexists|].
  inversion H as [|? ? Hchild Hrest]; subst.
  cbn [importStatementLoop].
  destruct (String.eqb (nodeType child) "string").
  { destruct (Content_within source child Hchild) as [text ->].
    now apply IH. }
  destruct (String.eqb (nodeType child) "import_clause"); [|now apply IH].
  unfold extractImportClause.
  destruct (importClauseLoop_within source (nodeChildren child) [] false
              (spansWithin_children source child Hchild)) as [[names' d] ->].
  now apply IH.
Qed.

Section TreeReturns.

Variable classify : string -> ImportType.

Lemma extractImportStatement_within :
  forall (source : string) (node : Node) (file : File),
    spansWithin source node = true ->
    exists file' : File,
      extractImportStatement classify node source file = Some file'.
Proof.
  intros source node file H.
  unfold extractImportStatement.
  destruct (importStatementLoop_within source (nodeChildren node) "" [] false
              (spansWithin_children source node H))
    as [[[importPath names] dflt] ->].
  destruct (negb (String.eqb importPath "")); now eexists.
Qed.

Lemma checkForDefaultExport_within :
  forall (source : string) (node : Node) (file : File),
    spansWithin source node = true ->
    checkForDefaultExport node file = None <-> (0 <? endByte node)%nat = true.
Proof.
  intros source node file H.
  destruct (0 <? endByte node)%nat eqn:Hend.
  - apply Nat.ltb_lt in Hend.
    now rewrite (checkForDefaultExport_none node file Hend).
  - apply Nat.ltb_ge in Hend.
    destruct node as [type sb eb children].
    cbn [spansWithin] in H.
    apply andb_true_iff in H as [H _]. apply andb_true_iff in H as [Hs _].
    apply Nat.leb_le in Hs.
    cbn [endByte] in Hend.
    assert (eb = 0) by lia. assert (sb = 0) by lia. subst.
    split; intros H'; discriminate H'.
Qed.

(** X22: when the traversal returns.  On a tree whose spans lie within the
    source, [extractImportsAndExports] panics exactly when its traversal
    reaches an export statement with a non-empty span; on every other tree
    it returns a file.  Import statements never make it panic. *)
Theorem extractImportsAndExports_panics_iff :
  forall (n : Node) (source : string) (file : File),
    spansWithin source n = true ->
    (extractImportsAndExports classify n source file = None <->
     reachesExport n = true).
Proof.
  intros n source.
  induction n as [type sb eb children IH] using Node_tree_ind.
  intros file H.
  rewrite extractImportsAndExports_children. cbn [nodeChildren reachesExport].
  pose proof (spansWithin_children source _ H) as Hall.
  cbn [nodeChildren] in Hall.
  clear H. revert file.
  induction IH as [|child children Hchild _ IHchildren]; intros file.
  - cbn. split; intros H; discriminate H.
  - inversion Hall as [|? ? Hspan Hrest]; subst.
    cbn [extractChildren existsb].
    destruct (String.eqb (nodeType child) "import_statement").
    + destruct (extractImportStatement_within source child file Hspan)
        as [mid ->].
      cbn [orb]. now apply IHchildren.
    + destruct (String.eqb (nodeType child) "export_statement").
      * pose proof (checkForDefaultExport_within source child file Hspan)
          as Hexport.
        destruct (checkForDefaultExport child file) as [mid|].
        -- destruct (0 <? endByte child)%nat.
           ++ discriminate (proj2 Hexport eq_refl).
           ++ cbn [orb]. now apply IHchildren.
        -- rewrite (proj1 Hexport eq_refl). now split.
      * pose proof (Hchild file Hspan) as Hrec.
        destruct (extractImportsAndExports classify child source file)
          as [mid|].
        -- destruct (reachesExport child).
           ++ discriminate (proj2 Hrec eq_refl).
           ++ cbn [orb]. now apply IHchildren.
        -- rewrite (proj1 Hrec eq_refl). now split.
Qed.

End TreeReturns.

Lemma extractImportsAndExports_panics_iff_sample :
  spansWithin sampleSource sampleSyntaxTree = true /\
  reachesExport sampleSyntaxTree = false /\
  (extractImportsAndExports (WithResolver.classifyImportType sampleAllowList)
     sampleSyntaxTree sampleSource sampleFile = None <->
   reachesExport sampleSyntaxTree = true).
Proof.
  split; [reflexivity|].
  split; [reflexivity|].
  apply (extractImportsAndExports_panics_iff
           (WithResolver.classifyImportType sampleAllowList)
           sampleSyntaxTree sampleSource sampleFile).
  reflexivity.
Defined.

(** X23: extraction and resolution fit together.  Every import that
    [extractImportsAndExports], with the classifier of the revision with the
    resolver, puts into a file without imports is of one of the three kinds
    [ResolveDependency] knows, so that the "unknown import type" branch is
    never taken for it: a builtin path resolves to the empty target without
    any call, and a path that is neither builtin nor relative gets the "not
    implemented" error without any call. *)
Theorem extracted_imports_resolve :
  forall (allowList : list string) (n : Node) (source : string)
         (file file' : File) (imp : Import),
    extractImportsAndExports (WithResolver.classifyImportType allowList)
      n source file = Some file' ->
    Imports file = [] ->
    In imp (Imports file') ->
    Type_ imp <> AssetImport /\
    forall (f : File) (currentDir : string) (w : World),
      (IsNodeBuiltin allowList (Path imp) = true ->
       run (WithResolver.ResolveDependency f imp currentDir) w
       = (inr "", [])) /\
      (IsNodeBuiltin allowList (Path imp) = false ->
       isRelativePath (Path imp) = false ->
       run (WithResolver.ResolveDependency f imp currentDir) w
       = (inl (Errorf_bare_import_resolution_not_implemented (Path imp)),
          [])).
Proof.
  intros allowList n source file file' imp Hextract Hempty Hin.
  destruct (extractImportsAndExports_keeps _ n source file file' Hextract)
    as (_ & _ & _ & _ & new & Himports & Hall).
  rewrite Hempty in Himports. cbn [app] in Himports.
  rewrite Himports in Hin.
  rewrite List.Forall_forall in Hall.
  destruct (Hall imp Hin) as (_ & _ & _ & Hkind).
  unfold WithResolver.classifyImportType in Hkind.
  split.
  - rewrite Hkind.
    destruct (IsNodeBuiltin allowList (Path imp)); [discriminate|].
    destruct (isRelativePath (Path imp)); discriminate.
  - intros f currentDir w.
    unfold WithResolver.ResolveDependency.
    split.
    + intros Hb. rewrite Hb in Hkind. now rewrite Hkind.
    + intros Hb Hrel. rewrite Hb, Hrel in Hkind. now rewrite Hkind.
Qed.

Lemma extracted_imports_resolve_sample :
  Type_ (mkImport "fs" "ns" BuiltinImport false) <> AssetImport /\
  forall (f : File) (currentDir : string) (w : World),
    (IsNodeBuiltin sampleAllowList "fs" = true ->
     run (WithResolver.ResolveDependency f
            (mkImport "fs" "ns" BuiltinImport false) currentDir) w
     = (inr "", [])) /\
    (IsNodeBuiltin sampleAllowList "fs" = false ->
     isRelativePath "fs" = false ->
     run (WithResolver.ResolveDependency f
            (mkImport "fs" "ns" BuiltinImport false) currentDir) w
     = (inl (Errorf_bare_import_resolution_not_implemented "fs"), [])).
Proof.
  apply (extracted_imports_resolve sampleAllowList sampleSyntaxTree
           sampleSource sampleFile
           (fold_left appendImport
              [mkImport "./lib" "d" RelativeImport true;
               mkImport "./lib" "a" RelativeImport false;
               mkImport "./lib" "c" RelativeImport false;
               mkImport "fs" "ns" BuiltinImport false;
               mkImport "side.css" "" BareImport false] sampleFile)
           (mkImport "fs" "ns" BuiltinImport false)).
  - reflexivity.
  - reflexivity.
  - cbn. auto.
Defined.


Lemma appendFirstIdentifier_extends :
  forall (child : Node) (source : string) (names names' : list string),
    appendFirstIdentifier child source names = Some names' ->
    exists extra : list string,
      names' = (names ++ extra)%list /\ length extra <= 1.
Proof.
  intros child source names names' H.
  unfold appendFirstIdentifier in H.
  destruct (firstIdentifier (nodeChildren child)) as [g|].
  - destruct (Content g (Some source)) as [name|]; [|discriminate H].
    injection H as <-. exists [name]. split; [reflexivity | cbn; lia].
  - injection H as <-. exists []. split; [now rewrite app_nil_r | cbn; lia].
Qed.

Lemma namedImportsLoop_extends :
  forall (children : list Node) (source : string)
         (names names' : list string),
    namedImportsLoop children source names = Some names' ->
    exists extra : list string,
      names' = (names ++ extra)%list /\
      length extra
      <= length (List.filter
                   (fun c => String.eqb (nodeType c) "import_specifier")
                   children).
Proof.
  induction children as [|child children IH]; intros source names names' H.
  - cbn in H. injection H as <-.
    exists []. split; [now rewrite app_nil_r | cbn; lia].
  - cbn [namedImportsLoop List.filter] in *.
    destruct (String.eqb (nodeType child) "import_specifier").
    + destruct (appendFirstIdentifier child source names) as [mid|] eqn:Hmid;
        [|discriminate H].
      apply appendFirstIdentifier_extends in Hmid as (e1 & -> & Hlen1).
      apply IH in H as (e2 & -> & Hlen2).
      exists (e1 ++ e2)%list.
      split; [now rewrite app_assoc|].
      rewrite length_app. cbn [length]. lia.
    + exact (IH _ _ _ H).
Qed.

Lemma importClauseLoop_default :
  forall (children : list Node) (source : string) (names names' : list string)
         (dflt dflt' : bool),
    importClauseLoop children source names dflt = Some (names', dflt') ->
    dflt' = dflt ||
            existsb (fun c => String.eqb (nodeType c) "identifier") children
    /\ exists extra : list string, names' = (names ++ extra)%list /\
       (dflt' = true -> dflt = false -> extra <> []).
Proof.
  induction children as [|child children IH];
    intros source names names' dflt dflt' H.
  - cbn in H. injection H as <- <-.
    split; [now rewrite orb_false_r|].
    exists []. split; [now rewrite app_nil_r|].
    intros -> Hd. discriminate Hd.
  - cbn [importClauseLoop existsb] in *.
    destruct (String.eqb (nodeType child) "identifier").
    + destruct (Content child (Some source)) as [name|]; [|discriminate H].
      apply IH in H as (-> & extra & -> & _).
      split; [now rewrite orb_true_r|].
      exists (name :: extra).
      split; [now rewrite <- app_assoc|].
      intros _ _. discriminate.
    + cbn [orb].
      destruct (String.eqb (nodeType child) "namespace_import").
      * destruct (appendFirstIdentifier child source names) as [mid|] eqn:Hmid;
          [|discriminate H].
        apply appendFirstIdentifier_extends in Hmid as (e1 & -> & _).
        apply IH in H as (-> & e2 & -> & Hne).
        split; [reflexivity|].
        exists (e1 ++ e2)%list.
        split; [now rewrite app_assoc|].
        intros H1 H2. specialize (Hne H1 H2).
        destruct e1; [exact Hne | discriminate].
      * destruct (String.eqb (nodeType child) "named_imports").
        -- destruct (extractNamedImports child source names) as [mid|] eqn:Hmid;
             [|discriminate H].
           apply namedImportsLoop_extends in Hmid as (e1 & -> & _).
           apply IH in H as (-> & e2 & -> & Hne).
           split; [reflexivity|].
           exists (e1 ++ e2)%list.
           split; [now rewrite app_assoc|].
           intros H1 H2. specialize (Hne H1 H2).
           destruct e1; [exact Hne | discriminate].
        -- exact (IH _ _ _ _ _ H).
Qed.

(** X24: the default flag of an import clause.  Whenever
    [extractImportClause] returns, the flag is set exactly when the clause
    has a child of type [identifier], and then there is at least one name;
    namespace imports and named imports never set it. *)
Theorem extractImportClause_default :
  forall (node : Node) (source : string) (names : list string)
         (hasDefault : bool),
    extractImportClause node source = Some (names, hasDefault) ->
    hasDefault
    = existsb (fun c => String.eqb (nodeType c) "identifier")
              (nodeChildren node) /\
    (hasDefault = true -> names <> []).
Proof.
  intros node source names hasDefault H.
  unfold extractImportClause in H.
  apply importClauseLoop_default in H as (Hd & extra & -> & Hne).
  split; [exact Hd|].
  intros Htrue. cbn [app]. now apply Hne.
Qed.

Lemma extractImportClause_default_sample :
  extractImportClause
    (mkNode "import_clause" 45 52
       [ mkNode "namespace_import" 45 52
           [ mkNode "*" 45 46 [];
             mkNode "as" 47 49 [];
             mkNode "identifier" 50 52 [] ] ])
    sampleSource = Some (["ns"], false) /\
  false
  = existsb (fun c => String.eqb (nodeType c) "identifier")
            (nodeChildren
               (mkNode "import_clause" 45 52
                  [ mkNode "namespace_import" 45 52
                      [ mkNode "*" 45 46 [];
                        mkNode "as" 47 49 [];
                        mkNode "identifier" 50 52 [] ] ])).
Proof.
  split; [reflexivity|].
  apply (extractImportClause_default
           (mkNode "import_clause" 45 52
              [ mkNode "namespace_import" 45 52
                  [ mkNode "*" 45 46 [];
                    mkNode "as" 47 49 [];
                    mkNode "identifier" 50 52 [] ] ])
           sampleSource ["ns"] false).
  reflexivity.
Defined.

